(** * Cell Analyzer: measurement, calibration and project persistence

    A shallow embedding of the measurement core of [Har_app.py]
    ([CellAnalyzerTab] and [CellAnalyzerApp]) and the properties of its
    measurement store, calibration and project documents.

    Python floats are IEEE binary64 values and are modelled by Rocq's
    primitive floats; Python ints are unbounded and are modelled by [Z].
    Methods that mutate [self] and may raise are functions in a small
    state-and-exception monad in which the state reached before a [raise]
    is kept, as it is in Python. *)

From Stdlib Require Import ZArith List String Ascii Bool Lia Sorted.
From Stdlib.Strings Require Import Byte.
From Stdlib Require Import PrimFloat SpecFloat FloatOps.
Import ListNotations.

Local Open Scope string_scope.
Local Open Scope list_scope.
Local Open Scope Z_scope.

(** ** Exceptions and results *)

Inductive exn : Type :=
| ValueError (msg : string)
| ZeroDivisionError
| OverflowError
| IndexError
| AttributeError
| IOError
| JSONDecodeError
| cv2_error.

Inductive res (A : Type) : Type :=
| Ok (a : A)
| Raise (e : exn).

Arguments Ok {A} a.
Arguments Raise {A} e.

(** [except ValueError]: [binascii.Error] is raised as a [ValueError] here,
    and [json.JSONDecodeError] is a subclass of [ValueError]. *)
Definition is_ValueError (e : exn) : bool :=
  match e with
  | ValueError _ | JSONDecodeError => true
  | _ => false
  end.

(** [except (IOError, ValueError, json.JSONDecodeError)]. *)
Definition is_load_error (e : exn) : bool :=
  match e with
  | IOError | ValueError _ | JSONDecodeError => true
  | _ => false
  end.

(** ** The state-and-exception monad *)

Definition M (S A : Type) : Type := S -> res A * S.

Definition ret {S A : Type} (a : A) : M S A := fun s => (Ok a, s).

Definition bind {S A B : Type} (m : M S A) (k : A -> M S B) : M S B :=
  fun s =>
    match m s with
    | (Ok a, s') => k a s'
    | (Raise e, s') => (Raise e, s')
    end.

Definition raise {S A : Type} (e : exn) : M S A := fun s => (Raise e, s).

Definition get {S : Type} : M S S := fun s => (Ok s, s).

Definition modify {S : Type} (f : S -> S) : M S unit := fun s => (Ok tt, f s).

Definition lift {S A : Type} (r : res A) : M S A := fun s => (r, s).

(** [try: m except <caught>: h]; the handler runs in the state in which the
    exception was raised. *)
Definition try_except {S A : Type} (m : M S A) (caught : exn -> bool)
    (h : exn -> M S A) : M S A :=
  fun s =>
    match m s with
    | (Raise e, s') => if caught e then h e s' else (Raise e, s')
    | r => r
    end.

Declare Scope monad_scope.
Delimit Scope monad_scope with monad.
Notation "x <- m ;; k" := (bind m (fun x => k))
  (at level 100, m at next level, right associativity) : monad_scope.
Notation "m ;;; k" := (bind m (fun _ => k))
  (at level 100, right associativity) : monad_scope.
Local Open Scope monad_scope.

(** [for x in l: body x]. *)
Fixpoint for_each {S A : Type} (l : list A) (body : A -> M S unit) : M S unit :=
  match l with
  | [] => ret tt
  | x :: l' => body x ;;; for_each l' body
  end.

(** ** Python numbers *)

(** [float(n)] for a Python int [n], rounding to nearest even.  Python
    raises [OverflowError] from [2^1024] on; every int converted by the
    program is a C [int] returned by OpenCV or NumPy. *)
Definition float_of_int (z : Z) : float :=
  SF2Prim (binary_normalize prec emax z 0 false).

(** [int(x)] for a Python float: truncation towards zero. *)
Definition py_int (x : float) : res Z :=
  match Prim2SF x with
  | S754_zero _ => Ok 0
  | S754_infinity _ => Raise OverflowError
  | S754_nan => Raise (ValueError "cannot convert float NaN to integer")
  | S754_finite s m e =>
      let mag := Z.shiftl (Z.pos m) e in
      Ok (if s then - mag else mag)
  end.

(** [x / n] for a float [x] and an int [n]. *)
Definition py_truediv (x : float) (n : Z) : res float :=
  if n =? 0 then Raise ZeroDivisionError
  else Ok (PrimFloat.div x (float_of_int n)).

(** ** Images and contours *)

(** A pixel of an 8-bit three-channel image, channels in storage order. *)
Definition pixel : Type := Z * Z * Z.

(** A three-channel [ndarray] of shape (rows, columns, 3). *)
Definition image : Type := list (list pixel).

(** A single-channel [ndarray] of shape (rows, columns). *)
Definition gray_image : Type := list (list Z).

(** The first two components of [img.shape]. *)
Definition shape {A : Type} (img : list (list A)) : Z * Z :=
  (Z.of_nat (List.length img), Z.of_nat (List.length (hd [] img))).

(** [cv2.cvtColor] with [COLOR_BGR2RGB] or [COLOR_RGB2BGR]: both exchange the
    first and the third channel. *)
Definition swap_channels (p : pixel) : pixel :=
  let '(c0, c1, c2) := p in (c2, c1, c0).

Definition cvtColor_swap (img : image) : image := map (map swap_channels) img.

(** [cv2.threshold(gray, thresh, maxval, cv2.THRESH_BINARY_INV)[1]]. *)
Definition threshold_binary_inv (g : gray_image) (thresh maxval : Z) : gray_image :=
  map (map (fun v => if thresh <? v then 0 else maxval)) g.

Definition point : Type := Z * Z.

(** A contour is an int32 [ndarray] of shape (N, 1, 2); [contour.tolist()]
    is the nested list of its points, kept here as the list of points. *)
Definition contour : Type := list point.

Definition in_int32 (z : Z) : bool := (- 2147483648 <=? z) && (z <=? 2147483647).

Definition point_in_int32 (p : point) : bool := in_int32 (fst p) && in_int32 (snd p).

(** [np.array(data, dtype=np.int32)]: out-of-bound Python integers are
    refused. *)
Definition np_array_int32 (data : list point) : res contour :=
  if forallb point_in_int32 data then Ok data else Raise OverflowError.

Record QPointF : Type := mkQPointF { qx : float; qy : float }.

Definition bytes : Type := list byte.

(** ** Operations of the external libraries

    The image-processing primitives, the text codecs and the Python
    conversions between text and floats are not part of the program; they
    are the operations of this interface. *)

Class External : Type := {
  (** [float(text)]; [None] when it raises [ValueError]. *)
  py_float : string -> option float;
  (** [str(x)] for a float. *)
  py_str : float -> string;
  (** [base64.b64encode(data).decode('utf-8')]. *)
  b64encode : bytes -> string;
  (** [base64.b64decode(text)]; [None] when it raises [binascii.Error]. *)
  b64decode : string -> option bytes;
  (** [cv2.imencode('.png', img)[1]]. *)
  imencode_png : image -> bytes;
  (** [cv2.imdecode(np.frombuffer(data, np.uint8), cv2.IMREAD_COLOR)]:
      [Ok None] when it returns [None], for bytes that are not an image;
      [Raise cv2_error] when it raises [cv2.error], as it does on an empty
      buffer. *)
  imdecode_color : bytes -> res (option image);
  (** [cv2.cvtColor(img, cv2.COLOR_BGR2GRAY)] on one pixel. *)
  gray_of_bgr : pixel -> Z;
  (** [cv2.findContours(mask, cv2.RETR_EXTERNAL, cv2.CHAIN_APPROX_SIMPLE)[0]]. *)
  findContours : gray_image -> list contour;
  contourArea : contour -> float;
  boundingRect : contour -> Z * Z * Z * Z;
  (** [cv2.pointPolygonTest(contour, pt, False)]: positive inside, zero on
      the boundary, negative outside. *)
  pointPolygonTest : contour -> point -> float;
  (** [bool(p)] for a [QPointF]. *)
  QPointF_bool : QPointF -> bool;
  (** [pow(x, 2.0)] of the C library, to which [x ** 2] comes down for a
      finite float [x] other than 0 and 1.  It is close to the square of
      [x], but need not be the correctly rounded product [x * x]. *)
  c_pow2 : float -> float
}.

(** ** Measurement records and tab state *)

(** One entry of [cell_measurements] (the graphics item ['outline_item'] is
    a view object and is left out), which is also the shape of an entry of
    ["cell_measurements"] in a saved snapshot. *)
Record Measurement : Type := mkMeasurement {
  id : Z;
  area_um2 : float;
  width_um : float;
  height_um : float;
  contour_data : list point
}.

(** What a tab sends to the status bar or shows in a message box. *)
Inductive message : Type :=
| msg_please_import        (* "Please import an image or load a project ..." *)
| msg_loaded (n : nat)     (* "Loaded image into tab with n measurements." *)
| box_load_error (e : exn) (* QMessageBox.critical "Load Error" *)
| msg_error_loading        (* "Error loading project." *)
| msg_cell_added (cell_id : Z) (area : float)  (* "Cell id added. Area: ..." *)
| msg_no_selection         (* "No measurement selected to delete." *)
| msg_deleted (cell_id : Z)        (* "Deleted Cell ID: id" *)
| msg_line_drawn (um_length : float)   (* "Line drawn. Length: ..." *)
| msg_dimensions_updated   (* "Image dimensions updated. Recalculating ..." *)
| msg_no_image_loaded      (* "No image loaded. Please load an image first." *)
| msg_invalid_input        (* "Invalid input. Please enter numbers ..." *)
| msg_image_scaled         (* "Image scaled to fit." *)
| msg_no_image_to_scale    (* "No image to auto-scale." *)
| msg_could_not_load       (* "Error: Could not load image from provided data." *)
| box_no_tabs_to_save      (* QMessageBox.warning "No tabs are open to save." *)
| msg_project_saved        (* "Project saved to path" *)
| msg_project_loaded.      (* "Project loaded from path" *)

(** The attributes of a [CellAnalyzerTab] that the measurement core reads
    or writes.  [measurements_table] keeps column 0 (the id) of every row;
    [log] is what the tab has reported, most recent first. *)
Record CellAnalyzerTab : Type := mkTab {
  image_width_um : float;
  image_height_um : float;
  pixel_width_um : float;
  pixel_height_um : float;
  contours : list contour;
  cell_measurements : list Measurement;
  next_cell_id : Z;
  line_start_point : option QPointF;
  img_color : option image;
  img_gray : option gray_image;
  width_input : string;
  height_input : string;
  measurements_table : list Z;
  line_length_label : option float;
  log : list message
}.

Definition set_image_width_um (v : float) (t : CellAnalyzerTab) : CellAnalyzerTab :=
  mkTab v (image_height_um t) (pixel_width_um t) (pixel_height_um t) (contours t)
    (cell_measurements t) (next_cell_id t) (line_start_point t) (img_color t)
    (img_gray t) (width_input t) (height_input t) (measurements_table t)
    (line_length_label t) (log t).

Definition set_image_height_um (v : float) (t : CellAnalyzerTab) : CellAnalyzerTab :=
  mkTab (image_width_um t) v (pixel_width_um t) (pixel_height_um t) (contours t)
    (cell_measurements t) (next_cell_id t) (line_start_point t) (img_color t)
    (img_gray t) (width_input t) (height_input t) (measurements_table t)
    (line_length_label t) (log t).

Definition set_pixel_width_um (v : float) (t : CellAnalyzerTab) : CellAnalyzerTab :=
  mkTab (image_width_um t) (image_height_um t) v (pixel_height_um t) (contours t)
    (cell_measurements t) (next_cell_id t) (line_start_point t) (img_color t)
    (img_gray t) (width_input t) (height_input t) (measurements_table t)
    (line_length_label t) (log t).

Definition set_pixel_height_um (v : float) (t : CellAnalyzerTab) : CellAnalyzerTab :=
  mkTab (image_width_um t) (image_height_um t) (pixel_width_um t) v (contours t)
    (cell_measurements t) (next_cell_id t) (line_start_point t) (img_color t)
    (img_gray t) (width_input t) (height_input t) (measurements_table t)
    (line_length_label t) (log t).

Definition set_contours (v : list contour) (t : CellAnalyzerTab) : CellAnalyzerTab :=
  mkTab (image_width_um t) (image_height_um t) (pixel_width_um t) (pixel_height_um t) v
    (cell_measurements t) (next_cell_id t) (line_start_point t) (img_color t)
    (img_gray t) (width_input t) (height_input t) (measurements_table t)
    (line_length_label t) (log t).

Definition set_cell_measurements (v : list Measurement) (t : CellAnalyzerTab) : CellAnalyzerTab :=
  mkTab (image_width_um t) (image_height_um t) (pixel_width_um t) (pixel_height_um t)
    (contours t) v (next_cell_id t) (line_start_point t) (img_color t)
    (img_gray t) (width_input t) (height_input t) (measurements_table t)
    (line_length_label t) (log t).

Definition set_next_cell_id (v : Z) (t : CellAnalyzerTab) : CellAnalyzerTab :=
  mkTab (image_width_um t) (image_height_um t) (pixel_width_um t) (pixel_height_um t)
    (contours t) (cell_measurements t) v (line_start_point t) (img_color t)
    (img_gray t) (width_input t) (height_input t) (measurements_table t)
    (line_length_label t) (log t).

Definition set_line_start_point (v : option QPointF) (t : CellAnalyzerTab) : CellAnalyzerTab :=
  mkTab (image_width_um t) (image_height_um t) (pixel_width_um t) (pixel_height_um t)
    (contours t) (cell_measurements t) (next_cell_id t) v (img_color t)
    (img_gray t) (width_input t) (height_input t) (measurements_table t)
    (line_length_label t) (log t).

Definition set_img_color (v : option image) (t : CellAnalyzerTab) : CellAnalyzerTab :=
  mkTab (image_width_um t) (image_height_um t) (pixel_width_um t) (pixel_height_um t)
    (contours t) (cell_measurements t) (next_cell_id t) (line_start_point t) v
    (img_gray t) (width_input t) (height_input t) (measurements_table t)
    (line_length_label t) (log t).

Definition set_img_gray (v : option gray_image) (t : CellAnalyzerTab) : CellAnalyzerTab :=
  mkTab (image_width_um t) (image_height_um t) (pixel_width_um t) (pixel_height_um t)
    (contours t) (cell_measurements t) (next_cell_id t) (line_start_point t)
    (img_color t) v (width_input t) (height_input t) (measurements_table t)
    (line_length_label t) (log t).

Definition set_width_input (v : string) (t : CellAnalyzerTab) : CellAnalyzerTab :=
  mkTab (image_width_um t) (image_height_um t) (pixel_width_um t) (pixel_height_um t)
    (contours t) (cell_measurements t) (next_cell_id t) (line_start_point t)
    (img_color t) (img_gray t) v (height_input t) (measurements_table t)
    (line_length_label t) (log t).

Definition set_height_input (v : string) (t : CellAnalyzerTab) : CellAnalyzerTab :=
  mkTab (image_width_um t) (image_height_um t) (pixel_width_um t) (pixel_height_um t)
    (contours t) (cell_measurements t) (next_cell_id t) (line_start_point t)
    (img_color t) (img_gray t) (width_input t) v (measurements_table t)
    (line_length_label t) (log t).

Definition set_measurements_table (v : list Z) (t : CellAnalyzerTab) : CellAnalyzerTab :=
  mkTab (image_width_um t) (image_height_um t) (pixel_width_um t) (pixel_height_um t)
    (contours t) (cell_measurements t) (next_cell_id t) (line_start_point t)
    (img_color t) (img_gray t) (width_input t) (height_input t) v
    (line_length_label t) (log t).

Definition set_line_length_label (v : option float) (t : CellAnalyzerTab) : CellAnalyzerTab :=
  mkTab (image_width_um t) (image_height_um t) (pixel_width_um t) (pixel_height_um t)
    (contours t) (cell_measurements t) (next_cell_id t) (line_start_point t)
    (img_color t) (img_gray t) (width_input t) (height_input t)
    (measurements_table t) v (log t).

Definition set_log (v : list message) (t : CellAnalyzerTab) : CellAnalyzerTab :=
  mkTab (image_width_um t) (image_height_um t) (pixel_width_um t) (pixel_height_um t)
    (contours t) (cell_measurements t) (next_cell_id t) (line_start_point t)
    (img_color t) (img_gray t) (width_input t) (height_input t)
    (measurements_table t) (line_length_label t) v.

(** A saved tab, as [save_state] returns it and [load_state] reads it: the
    values of the keys ["title"], ["image_b64"], ["image_width_um"],
    ["image_height_um"], ["cell_measurements"] and ["next_cell_id"], each
    [None] when the key is absent. *)
Record TabSnapshot : Type := mkTabSnapshot {
  s_title : option string;
  s_image_b64 : option string;
  s_image_width_um : option float;
  s_image_height_um : option float;
  s_cell_measurements : option (list Measurement);
  s_next_cell_id : option Z
}.

(** [dict.get(key, default)]. *)
Definition get_default {A : Type} (field : option A) (default : A) : A :=
  match field with
  | Some v => v
  | None => default
  end.

Inductive MouseButton : Type := LeftButton | RightButton | MiddleButton.

(** A mouse event on the viewport; [scene_pos] is
    [self.view.mapToScene(event.pos())]. *)
Record MouseEvent : Type := mkMouseEvent {
  button : MouseButton;
  scene_pos : QPointF
}.

(** [removeRow(row)] on the table. *)
Definition remove_row {A : Type} (row : nat) (rows : list A) : list A :=
  firstn row rows ++ skipn (S row) rows.

(** ** The methods of [CellAnalyzerTab] *)

Section TabMethods.

Context {ext : External}.

Definition THRESHOLD_VALUE : Z := 200.
Definition MIN_CONTOUR_AREA : Z := 50.

Definition update_status (m : message) : M CellAnalyzerTab unit :=
  modify (fun t => set_log (m :: log t) t).

(** [CellAnalyzerTab.__init__]. *)
Definition CellAnalyzerTab_init (width_um height_um : float) : CellAnalyzerTab :=
  {| image_width_um := width_um;
     image_height_um := height_um;
     pixel_width_um := 0%float;
     pixel_height_um := 0%float;
     contours := [];
     cell_measurements := [];
     next_cell_id := 1;
     line_start_point := None;
     img_color := None;
     img_gray := None;
     width_input := py_str width_um;
     height_input := py_str height_um;
     measurements_table := [];
     line_length_label := None;
     log := [msg_please_import] |}.

(** [CellAnalyzerTab(status_bar=...)], with the default dimensions. *)
Definition new_tab : CellAnalyzerTab := CellAnalyzerTab_init 100%float 100%float.

(** [draw_contour] builds the outline from [contour[0][0]] on: it raises
    [IndexError] on a contour without points. *)
Definition draw_contour (c : contour) : M CellAnalyzerTab unit :=
  match c with
  | [] => raise IndexError
  | _ :: _ => ret tt
  end.

Definition add_measurement_to_table (cell_id : Z) (c : contour)
    (width height area : float) : M CellAnalyzerTab unit :=
  draw_contour c ;;;
  let data := {| id := cell_id; area_um2 := area; width_um := width;
                 height_um := height; contour_data := c |} in
  modify (fun t => set_cell_measurements (cell_measurements t ++ [data]) t) ;;;
  modify (fun t => set_measurements_table (measurements_table t ++ [cell_id]) t).

(** [area_px * self.pixel_width_um * self.pixel_height_um]. *)
Definition to_area_um2 (area_px pw ph : float) : float :=
  PrimFloat.mul (PrimFloat.mul area_px pw) ph.

(** [w * self.pixel_width_um], for an int [w]. *)
Definition to_length_um (n : Z) (unit_per_pixel : float) : float :=
  PrimFloat.mul (float_of_int n) unit_per_pixel.

(** The loop of [handle_click] over [self.contours]; it ends at the first
    contour that holds the point. *)
Fixpoint handle_click_scan (cs : list contour) (x y : float) : M CellAnalyzerTab unit :=
  match cs with
  | [] => ret tt
  | c :: cs' =>
      ix <- lift (py_int x) ;;
      iy <- lift (py_int y) ;;
      if PrimFloat.leb 0%float (pointPolygonTest c (ix, iy)) then
        t <- get ;;
        let area_px := contourArea c in
        let area := to_area_um2 area_px (pixel_width_um t) (pixel_height_um t) in
        let '(_, _, w, h) := boundingRect c in
        let width := to_length_um w (pixel_width_um t) in
        let height := to_length_um h (pixel_height_um t) in
        add_measurement_to_table (next_cell_id t) c width height area ;;;
        t' <- get ;;
        update_status (msg_cell_added (next_cell_id t') area) ;;;
        modify (fun t => set_next_cell_id (next_cell_id t + 1) t)
      else handle_click_scan cs' x y
  end.

Definition handle_click (event : MouseEvent) : M CellAnalyzerTab unit :=
  match button event with
  | LeftButton =>
      t <- get ;;
      handle_click_scan (contours t) (qx (scene_pos event)) (qy (scene_pos event))
  | _ => ret tt
  end.

(** [selected_rows] are the rows of [selectedIndexes()]. *)
Definition delete_selected_measurement (selected_rows : list nat) : M CellAnalyzerTab unit :=
  match selected_rows with
  | [] => update_status msg_no_selection
  | row :: _ =>
      t <- get ;;
      match nth_error (measurements_table t) row with
      | None => raise AttributeError
      | Some cell_id =>
          match find (fun m => id m =? cell_id) (cell_measurements t) with
          | Some _ =>
              modify (fun t => set_cell_measurements
                (filter (fun m => negb (id m =? cell_id)) (cell_measurements t)) t) ;;;
              modify (fun t => set_measurements_table
                (remove_row row (measurements_table t)) t) ;;;
              update_status (msg_deleted cell_id)
          | None => ret tt
          end
      end
  end.

Definition clear_temp_items : M CellAnalyzerTab unit :=
  modify (set_line_start_point None).

Definition handle_line_press (event : MouseEvent) : M CellAnalyzerTab unit :=
  clear_temp_items ;;;
  modify (set_line_start_point (Some (scene_pos event))).

(** [x ** 2] for a float [x] ([float_pow] with the exponent 2): NaN,
    the infinities, zero and the numbers of absolute value 1 are answered
    without the C library; otherwise [pow] is applied to the absolute
    value, and an infinite result raises [OverflowError]. *)
Definition py_sq (x : float) : res float :=
  if PrimFloat.is_nan x then Ok x
  else if PrimFloat.is_infinity x then Ok PrimFloat.infinity
  else if PrimFloat.eqb x 0%float then Ok 0%float
  else
    let iv := PrimFloat.abs x in
    if PrimFloat.eqb iv 1%float then Ok 1%float
    else
      let ix := c_pow2 iv in
      if PrimFloat.is_infinity ix then Raise OverflowError else Ok ix.

(** The length computed by [handle_line_release]: the two squares, in
    this order, then the two square roots and their product. *)
Definition line_um_length (start end_point : QPointF) (pw ph : float) : res float :=
  match py_sq (PrimFloat.sub (qx end_point) (qx start)) with
  | Raise e => Raise e
  | Ok square_x =>
      match py_sq (PrimFloat.sub (qy end_point) (qy start)) with
      | Raise e => Raise e
      | Ok square_y =>
          let pixel_length := PrimFloat.sqrt (PrimFloat.add square_x square_y) in
          let pixel_size := PrimFloat.sqrt (PrimFloat.mul pw ph) in
          Ok (PrimFloat.mul pixel_length pixel_size)
      end
  end.

(** [if self.line_start_point:] holds when the point is not [None] and is
    true as a [QPointF]. *)
Definition handle_line_release (event : MouseEvent) : M CellAnalyzerTab unit :=
  t <- get ;;
  match line_start_point t with
  | Some start =>
      if QPointF_bool start then
        um_length <-
          lift (line_um_length start (scene_pos event)
                  (pixel_width_um t) (pixel_height_um t)) ;;
        modify (set_line_length_label (Some um_length)) ;;;
        update_status (msg_line_drawn um_length) ;;;
        clear_temp_items
      else ret tt
  | None => ret tt
  end.

(** [float(text)]. *)
Definition float_of_text (text : string) : M CellAnalyzerTab float :=
  match py_float text with
  | Some x => ret x
  | None => raise (ValueError "could not convert string to float")
  end.

(** The body of the loop of [recalculate_dimensions]. *)
Definition recalculate_one (m : Measurement) : M CellAnalyzerTab unit :=
  contour_np <- lift (np_array_int32 (contour_data m)) ;;
  let '(_, _, w_px, h_px) := boundingRect contour_np in
  let area_px := contourArea contour_np in
  t <- get ;;
  let area := to_area_um2 area_px (pixel_width_um t) (pixel_height_um t) in
  let width := to_length_um w_px (pixel_width_um t) in
  let height := to_length_um h_px (pixel_height_um t) in
  add_measurement_to_table (id m) contour_np width height area.

Definition recalculate_dimensions : M CellAnalyzerTab unit :=
  try_except
    (t <- get ;;
     w <- float_of_text (width_input t) ;;
     modify (set_image_width_um w) ;;;
     h <- float_of_text (height_input t) ;;
     modify (set_image_height_um h) ;;;
     match img_gray t with
     | Some g =>
         let '(img_height_px, img_width_px) := shape g in
         pw <- lift (py_truediv w img_width_px) ;;
         modify (set_pixel_width_um pw) ;;;
         ph <- lift (py_truediv h img_height_px) ;;
         modify (set_pixel_height_um ph) ;;;
         update_status msg_dimensions_updated ;;;
         t <- get ;;
         let temp_measurements := cell_measurements t in
         modify (set_cell_measurements []) ;;;
         modify (set_measurements_table []) ;;;
         for_each temp_measurements recalculate_one
     | None => update_status msg_no_image_loaded
     end)
    is_ValueError
    (fun _ => update_status msg_invalid_input).

Definition auto_scale_image : M CellAnalyzerTab unit :=
  t <- get ;;
  match img_color t with
  | Some _ => update_status msg_image_scaled
  | None => update_status msg_no_image_to_scale
  end.

Definition clear_all_outlines : M CellAnalyzerTab unit :=
  modify (set_cell_measurements []) ;;;
  modify (set_measurements_table []) ;;;
  modify (set_next_cell_id 1).

(** [img] is [None] when the image could not be read. *)
Definition analyze_image (img : option image) : M CellAnalyzerTab unit :=
  match img with
  | None => update_status msg_could_not_load
  | Some img =>
      let color := cvtColor_swap img in
      let gray := map (map gray_of_bgr) img in
      modify (set_img_color (Some color)) ;;;
      modify (set_img_gray (Some gray)) ;;;
      let thresh := threshold_binary_inv gray THRESHOLD_VALUE 255 in
      let found := findContours thresh in
      modify (set_contours
        (filter (fun c => PrimFloat.ltb (float_of_int MIN_CONTOUR_AREA) (contourArea c))
                found)) ;;;
      let '(img_height_px, img_width_px) := shape color in
      t <- get ;;
      pw <- lift (py_truediv (image_width_um t) img_width_px) ;;
      modify (set_pixel_width_um pw) ;;;
      ph <- lift (py_truediv (image_height_um t) img_height_px) ;;
      modify (set_pixel_height_um ph) ;;;
      clear_all_outlines ;;;
      auto_scale_image
  end.

(** [parent_title] is the tab text found through [self.parent()], when the
    parent has one. *)
Definition save_state (parent_title : option string) (t : CellAnalyzerTab) : option TabSnapshot :=
  match img_color t with
  | None => None
  | Some color =>
      let img_data := imencode_png (cvtColor_swap color) in
      let img_b64 := b64encode img_data in
      let title := get_default parent_title "Untitled Tab" in
      let serializable_measurements :=
        map (fun m => {| id := id m; area_um2 := area_um2 m; width_um := width_um m;
                         height_um := height_um m; contour_data := contour_data m |})
            (cell_measurements t) in
      Some {| s_title := Some title;
              s_image_b64 := Some img_b64;
              s_image_width_um := Some (image_width_um t);
              s_image_height_um := Some (image_height_um t);
              s_cell_measurements := Some serializable_measurements;
              s_next_cell_id := Some (next_cell_id t) |}
  end.

(** The body of the loop of [load_state]. *)
Definition load_one (m : Measurement) : M CellAnalyzerTab unit :=
  contour_np <- lift (np_array_int32 (contour_data m)) ;;
  add_measurement_to_table (id m) contour_np (width_um m) (height_um m) (area_um2 m).

Definition load_state (state : TabSnapshot) : M CellAnalyzerTab unit :=
  try_except
    (img_b64 <-
       match s_image_b64 state with
       | None | Some "" => raise (ValueError "No image data found in state.")
       | Some s => ret s
       end ;;
     img_data <-
       match b64decode img_b64 with
       | Some data => ret data
       | None => raise (ValueError "Incorrect padding")
       end ;;
     img <- lift (imdecode_color img_data) ;;
     modify (set_image_width_um (get_default (s_image_width_um state) 100%float)) ;;;
     t <- get ;;
     modify (set_height_input (py_str (image_height_um t))) ;;;
     modify (set_image_height_um (get_default (s_image_height_um state) 100%float)) ;;;
     t <- get ;;
     modify (set_width_input (py_str (image_width_um t))) ;;;
     analyze_image img ;;;
     modify (set_cell_measurements []) ;;;
     modify (set_next_cell_id (get_default (s_next_cell_id state) 1)) ;;;
     let loaded_measurements := get_default (s_cell_measurements state) [] in
     for_each loaded_measurements load_one ;;;
     t <- get ;;
     update_status (msg_loaded (List.length (cell_measurements t))))
    is_load_error
    (fun e =>
       update_status (box_load_error e) ;;;
       update_status msg_error_loading).

End TabMethods.

(** ** The project document and [CellAnalyzerApp] *)

(** The parsed project file: the values of the keys ["version"] and
    ["tabs"], [None] when the key is absent.  [json.dump] followed by
    [json.load] gives back an equal document; the text in between is not
    modelled. *)
Record ProjectData : Type := mkProjectData {
  version : option string;
  tabs_key : option (list TabSnapshot)
}.

(** The tab widget of the application, each page with its tab text, and
    what the application itself has reported, most recent first. *)
Record CellAnalyzerApp : Type := mkApp {
  tabs : list (string * CellAnalyzerTab);
  app_log : list message
}.

Definition set_tabs (v : list (string * CellAnalyzerTab)) (a : CellAnalyzerApp) : CellAnalyzerApp :=
  mkApp v (app_log a).

Definition app_status (m : message) : M CellAnalyzerApp unit :=
  modify (fun a => mkApp (tabs a) (m :: app_log a)).

Definition set_title (title : string) (s : TabSnapshot) : TabSnapshot :=
  mkTabSnapshot (Some title) (s_image_b64 s) (s_image_width_um s)
    (s_image_height_um s) (s_cell_measurements s) (s_next_cell_id s).

Section AppMethods.

Context {ext : External}.

(** The loop of [save_project]: a tab without a snapshot is skipped, and
    the title of a snapshot is set to the tab text. *)
Definition project_states (pages : list (string * CellAnalyzerTab)) : list TabSnapshot :=
  flat_map
    (fun page =>
       match save_state None (snd page) with
       | Some state => [set_title (fst page) state]
       | None => []
       end)
    pages.

(** [save_project], once a file has been chosen; the result is the
    document handed to [json.dump]. *)
Definition save_project : M CellAnalyzerApp (option ProjectData) :=
  a <- get ;;
  match tabs a with
  | [] => app_status box_no_tabs_to_save ;;; ret None
  | _ :: _ =>
      let project_data :=
        {| version := Some "1.0"; tabs_key := Some (project_states (tabs a)) |} in
      app_status msg_project_saved ;;;
      ret (Some project_data)
  end.

(** The body of the loop of [_load_project_from_path]: an exception that
    leaves [load_state] leaves the loop before [addTab]. *)
Definition load_tab (tab_state : TabSnapshot) : M CellAnalyzerApp unit :=
  match load_state tab_state new_tab with
  | (Ok _, loaded) =>
      modify (fun a =>
        set_tabs (tabs a ++ [(get_default (s_title tab_state) "Loaded Tab", loaded)]) a)
  | (Raise e, _) => raise e
  end.

(** [file] is the outcome of [open] and [json.load]. *)
Definition _load_project_from_path (file : res ProjectData) : M CellAnalyzerApp bool :=
  try_except
    (project_data <- lift file ;;
     states <-
       match tabs_key project_data with
       | Some states => ret states
       | None => raise (ValueError "Invalid project file format.")
       end ;;
     modify (set_tabs []) ;;;
     for_each states load_tab ;;;
     app_status msg_project_loaded ;;;
     ret true)
    is_load_error
    (fun e =>
       app_status (box_load_error e) ;;;
       app_status msg_error_loading ;;;
       ret false).

End AppMethods.

(** ** A reference instance of the external operations

    Executable definitions of the library operations, used to run the
    model on concrete inputs: decimal text for floats, RFC 4648 base64,
    OpenCV's integer formulas for areas, bounding rectangles and the
    point-in-polygon test.  In place of the PNG codec there is a raw
    container (a marker byte, the width, then the channels of every
    pixel), in place of the contour tracer the rectangle around the
    foreground pixels of the mask, and in place of the C library's [pow]
    the correctly rounded product. *)

Module Reference.

Definition digit_of_ascii (c : ascii) : option Z :=
  let n := Z.of_N (N_of_ascii c) in
  if (48 <=? n) && (n <=? 57) then Some (n - 48) else None.

(** The leading digits of [s]: their value on top of [acc], their number on
    top of [n], and the rest of the text. *)
Fixpoint digits (s : string) (acc : Z) (n : nat) : Z * nat * string :=
  match s with
  | String c s' =>
      match digit_of_ascii c with
      | Some d => digits s' (10 * acc + d) (S n)
      | None => (acc, n, s)
      end
  | EmptyString => (acc, n, s)
  end.

(** Texts of the form [-]digits[.digits]. *)
Definition decimal_float (s : string) : option float :=
  let '(neg, body) :=
    match s with
    | String "-"%char s' => (true, s')
    | _ => (false, s)
    end in
  let sign (x : float) := if neg then PrimFloat.opp x else x in
  let '(int_part, n, rest) := digits body 0 0 in
  match n, rest with
  | O, _ => None
  | _, EmptyString => Some (sign (float_of_int int_part))
  | _, String "."%char frac =>
      let '(mantissa, k, rest') := digits frac int_part 0 in
      match rest' with
      | EmptyString =>
          Some (sign (PrimFloat.div (float_of_int mantissa)
                                    (float_of_int (10 ^ Z.of_nat k))))
      | _ => None
      end
  | _, _ => None
  end.

Fixpoint decimal_digits (fuel : nat) (z : Z) (acc : string) : string :=
  match fuel with
  | O => acc
  | S fuel' =>
      let acc' := String (ascii_of_N (Z.to_N (48 + z mod 10))) acc in
      if z / 10 =? 0 then acc' else decimal_digits fuel' (z / 10) acc'
  end.

Definition decimal_of_Z (z : Z) : string :=
  let body := decimal_digits (S (Z.to_nat (Z.log2 (Z.abs z)))) (Z.abs z) "" in
  if z <? 0 then String "-"%char body else body.

(** Integral values print as in Python (["100.0"]); the others as their
    mantissa and binary exponent. *)
Definition float_text (x : float) : string :=
  match Prim2SF x with
  | S754_zero s => if s then "-0.0" else "0.0"
  | S754_infinity s => if s then "-inf" else "inf"
  | S754_nan => "nan"
  | S754_finite s m e =>
      if 0 <=? e then
        append (decimal_of_Z (if s then - Z.shiftl (Z.pos m) e else Z.shiftl (Z.pos m) e)) ".0"
      else if Z.shiftl (Z.shiftl (Z.pos m) e) (- e) =? Z.pos m then
        append (decimal_of_Z (if s then - Z.shiftl (Z.pos m) e else Z.shiftl (Z.pos m) e)) ".0"
      else
        append (decimal_of_Z (if s then Z.neg m else Z.pos m))
               (append "p" (decimal_of_Z e))
  end.

(** *** Base64 *)

Definition b64_char (n : N) : ascii :=
  (if n <? 26 then ascii_of_N (65 + n)
   else if n <? 52 then ascii_of_N (97 + (n - 26))
   else if n <? 62 then ascii_of_N (48 + (n - 52))
   else if n =? 62 then "+"%char else "/"%char)%N.

Definition b64_value (c : ascii) : option N :=
  (let n := N_of_ascii c in
   if (65 <=? n) && (n <=? 90) then Some (n - 65)
   else if (97 <=? n) && (n <=? 122) then Some (n - 97 + 26)
   else if (48 <=? n) && (n <=? 57) then Some (n - 48 + 52)
   else if n =? 43 then Some 62
   else if n =? 47 then Some 63
   else None)%N.

Fixpoint base64_encode (data : bytes) : string :=
  (match data with
   | [] => ""
   | [a] =>
       let n := Byte.to_N a in
       String (b64_char (n / 4)) (String (b64_char (n mod 4 * 16)) "==")
   | [a; b] =>
       let n := Byte.to_N a * 256 + Byte.to_N b in
       String (b64_char (n / 1024))
         (String (b64_char (n / 16 mod 64)) (String (b64_char (n mod 16 * 4)) "="))
   | a :: b :: c :: rest =>
       let n := Byte.to_N a * 65536 + Byte.to_N b * 256 + Byte.to_N c in
       String (b64_char (n / 262144))
         (String (b64_char (n / 4096 mod 64))
            (String (b64_char (n / 64 mod 64))
               (String (b64_char (n mod 64)) (base64_encode rest))))
   end)%N.

(** The sextets of the alphabet characters of the text up to its padding,
    and the number of padding characters that follow. *)
Fixpoint b64_sextets (s : string) : list N * nat :=
  match s with
  | EmptyString => ([], O)
  | String c s' =>
      if Ascii.eqb c "="%char then
        ([], S (snd (b64_sextets s')))
      else
        let '(vs, pad) := b64_sextets s' in
        match b64_value c with
        | Some v => (v :: vs, pad)
        | None => (vs, pad)
        end
  end.

Definition byte_of_N (n : N) : byte :=
  match Byte.of_N (n mod 256) with
  | Some b => b
  | None => x00
  end.

Fixpoint b64_groups (vs : list N) (pad : nat) : option bytes :=
  (match vs with
   | [] => Some []
   | [_] => None
   | [a; b] =>
       if Nat.leb 2 pad then Some [byte_of_N (a * 4 + b / 16)] else None
   | [a; b; c] =>
       if Nat.leb 1 pad then
         Some [byte_of_N (a * 4 + b / 16); byte_of_N (b mod 16 * 16 + c / 4)]
       else None
   | a :: b :: c :: d :: rest =>
       match b64_groups rest pad with
       | Some out =>
           Some (byte_of_N (a * 4 + b / 16) :: byte_of_N (b mod 16 * 16 + c / 4)
                 :: byte_of_N (c mod 4 * 64 + d) :: out)
       | None => None
       end
   end)%N.

Definition base64_decode (s : string) : option bytes :=
  let '(vs, pad) := b64_sextets s in b64_groups vs pad.

(** *** The raw image container *)

Definition byte_of_Z (z : Z) : byte := byte_of_N (Z.to_N z).

Definition Z_of_byte (b : byte) : Z := Z.of_N (Byte.to_N b).

Definition pixel_bytes (p : pixel) : bytes :=
  let '(c0, c1, c2) := p in [byte_of_Z c0; byte_of_Z c1; byte_of_Z c2].

Definition raw_marker : byte := x89.

Definition raw_encode (img : image) : bytes :=
  let w := Z.of_nat (List.length (hd [] img)) in
  raw_marker :: byte_of_Z (w / 256) :: byte_of_Z (w mod 256)
    :: List.concat (map (fun row => List.concat (map pixel_bytes row)) img).

Fixpoint raw_pixels (data : bytes) : list pixel :=
  match data with
  | a :: b :: c :: rest => (Z_of_byte a, Z_of_byte b, Z_of_byte c) :: raw_pixels rest
  | _ => []
  end.

Fixpoint raw_rows (fuel width : nat) (pixels : list pixel) : image :=
  match fuel, pixels with
  | O, _ | _, [] => []
  | S fuel', _ => firstn width pixels :: raw_rows fuel' width (skipn width pixels)
  end.

Definition raw_decode (data : bytes) : option image :=
  match data with
  | m :: hi :: lo :: payload =>
      let w := Z.to_nat (Z_of_byte hi * 256 + Z_of_byte lo) in
      let n := List.length payload in
      if Byte.eqb m raw_marker && negb (Nat.eqb w 0) && negb (Nat.eqb n 0)
         && Nat.eqb (Nat.modulo n (3 * w)) 0
      then Some (raw_rows n w (raw_pixels payload))
      else None
  | _ => None
  end.

(** The decoder raises on an empty buffer. *)
Definition raw_imdecode (data : bytes) : res (option image) :=
  match data with
  | [] => Raise cv2_error
  | _ :: _ => Ok (raw_decode data)
  end.

(** *** Geometry *)

(** OpenCV's fixed-point luma of a BGR pixel. *)
Definition luma (p : pixel) : Z :=
  let '(b, g, r) := p in Z.shiftr (r * 4899 + g * 9617 + b * 1868 + 8192) 14.

Definition foreground_points (mask : gray_image) : list point :=
  List.concat
    (map (fun '(y, row) =>
            List.concat (map (fun '(x, v) => if v =? 0 then [] else [(Z.of_nat x, Z.of_nat y)])
                        (combine (seq 0 (List.length row)) row)))
         (combine (seq 0 (List.length mask)) mask)).

Definition min_list (l : list Z) : Z := fold_right Z.min (hd 0 l) l.
Definition max_list (l : list Z) : Z := fold_right Z.max (hd 0 l) l.

Definition rectangle_around (mask : gray_image) : list contour :=
  match foreground_points mask with
  | [] => []
  | pts =>
      let xs := map fst pts in
      let ys := map snd pts in
      [[(min_list xs, min_list ys); (min_list xs, max_list ys);
        (max_list xs, max_list ys); (max_list xs, min_list ys)]]
  end.

(** The edges of a closed polygon, each from a point to its successor,
    starting with the edge from the last point to the first. *)
Definition edges (c : contour) : list (point * point) :=
  match c with
  | [] => []
  | p :: _ => combine (last c p :: c) c
  end.

Definition shoelace (c : contour) : Z :=
  fold_right Z.add 0
    (map (fun '((x0, y0), (x1, y1)) => x0 * y1 - x1 * y0) (edges c)).

Definition polygon_area (c : contour) : float :=
  PrimFloat.mul (float_of_int (Z.abs (shoelace c))) 0.5%float.

Definition bounding_rect (c : contour) : Z * Z * Z * Z :=
  match c with
  | [] => (0, 0, 0, 0)
  | _ =>
      let xs := map fst c in
      let ys := map snd c in
      (min_list xs, min_list ys,
       max_list xs - min_list xs + 1, max_list ys - min_list ys + 1)
  end.

(** One edge of OpenCV's integer point-in-polygon test: [None] when the
    point lies on the edge, otherwise whether the edge is crossed. *)
Definition edge_test (pt : point) (e : point * point) : option bool :=
  let '(x, y) := pt in
  let '((x0, y0), (x1, y1)) := e in
  if ((y0 <=? y) && (y1 <=? y)) || ((y <? y0) && (y <? y1)) || ((x0 <? x) && (x1 <? x))
  then
    if (y =? y1) &&
       ((x =? x1) ||
        ((y =? y0) && (((x0 <=? x) && (x <=? x1)) || ((x1 <=? x) && (x <=? x0)))))
    then None
    else Some false
  else
    let dist := (y - y0) * (x1 - x0) - (x - x0) * (y1 - y0) in
    if dist =? 0 then None
    else Some (0 <? (if y1 <? y0 then - dist else dist)).

Fixpoint crossings (pt : point) (es : list (point * point)) : option nat :=
  match es with
  | [] => Some O
  | e :: es' =>
      match edge_test pt e, crossings pt es' with
      | Some b, Some n => Some (if b then S n else n)
      | _, _ => None
      end
  end.

Definition point_polygon_test (c : contour) (pt : point) : float :=
  match crossings pt (edges c) with
  | None => 0%float
  | Some n => if Nat.even n then (-1)%float else 1%float
  end.

Definition is_null (p : QPointF) : bool :=
  PrimFloat.eqb (qx p) 0%float && PrimFloat.eqb (qy p) 0%float.

#[export] Instance reference : External := {|
  py_float := decimal_float;
  py_str := float_text;
  b64encode := base64_encode;
  b64decode := base64_decode;
  imencode_png := raw_encode;
  imdecode_color := raw_imdecode;
  gray_of_bgr := luma;
  findContours := rectangle_around;
  contourArea := polygon_area;
  boundingRect := bounding_rect;
  pointPolygonTest := point_polygon_test;
  QPointF_bool := fun p => negb (is_null p);
  c_pow2 := fun x => PrimFloat.mul x x
|}.

End Reference.


(** ** Definitions used to state the properties *)

Section Statements.

Context {ext : External}.

(** The record that the program derives from a contour under the pixel
    sizes [pw] and [ph]: the formulas of [handle_click] and of
    [recalculate_dimensions]. *)
Definition derived_measurement (pw ph : float) (cell_id : Z)
    (c : contour) : Measurement :=
  {| id := cell_id;
     area_um2 := PrimFloat.mul (PrimFloat.mul (contourArea c) pw) ph;
     width_um := PrimFloat.mul (float_of_int (snd (fst (boundingRect c)))) pw;
     height_um := PrimFloat.mul (float_of_int (snd (boundingRect c))) ph;
     contour_data := c |}.

(** The point lies in the contour, boundary included. *)
Definition holds_point (c : contour) (p : point) : bool :=
  PrimFloat.leb 0%float (pointPolygonTest c p).

(** The tab after a click that selected the contour [c]. *)
Definition clicked (t : CellAnalyzerTab) (c : contour) : CellAnalyzerTab :=
  let m := derived_measurement (pixel_width_um t) (pixel_height_um t) (next_cell_id t) c in
  mkTab (image_width_um t) (image_height_um t) (pixel_width_um t) (pixel_height_um t)
    (contours t) (cell_measurements t ++ [m]) (next_cell_id t + 1)
    (line_start_point t) (img_color t) (img_gray t) (width_input t) (height_input t)
    (measurements_table t ++ [next_cell_id t]) (line_length_label t)
    (msg_cell_added (next_cell_id t) (area_um2 m) :: log t).

(** The operations of one measurement store: a mouse press on the
    viewport in analysis mode, and a press on "Delete Selected" while
    [selected_rows] are the selected rows of the table. *)
Inductive StoreOp : Type :=
| Click (event : MouseEvent)
| DeleteSelected (selected_rows : list nat).

Definition apply_op (op : StoreOp) : M CellAnalyzerTab unit :=
  match op with
  | Click event => handle_click event
  | DeleteSelected selected_rows => delete_selected_measurement selected_rows
  end.

(** The handlers run one after the other; a handler that raises leaves the
    tab as it was when the exception was raised. *)
Fixpoint run (ops : list StoreOp) (t : CellAnalyzerTab) : CellAnalyzerTab :=
  match ops with
  | [] => t
  | op :: ops' => run ops' (snd (apply_op op t))
  end.

(** The ids announced by the "Cell id added" messages of a log, most
    recent first. *)
Fixpoint assigned_ids (l : list message) : list Z :=
  match l with
  | [] => []
  | msg_cell_added cell_id _ :: l' => cell_id :: assigned_ids l'
  | _ :: l' => assigned_ids l'
  end.

(** The tab after the measurements with id [cell_id] and the table row
    [row] have been deleted. *)
Definition deleted (t : CellAnalyzerTab) (row : nat) (cell_id : Z) : CellAnalyzerTab :=
  mkTab (image_width_um t) (image_height_um t) (pixel_width_um t) (pixel_height_um t)
    (contours t) (filter (fun m => negb (id m =? cell_id)) (cell_measurements t))
    (next_cell_id t) (line_start_point t) (img_color t) (img_gray t)
    (width_input t) (height_input t) (remove_row row (measurements_table t))
    (line_length_label t) (msg_deleted cell_id :: log t).

(** A record whose polygon the program can convert and draw again: it has
    a point and its coordinates are 32-bit integers. *)
Definition redrawable (m : Measurement) : bool :=
  match contour_data m with
  | [] => false
  | _ :: _ => forallb point_in_int32 (contour_data m)
  end.

(** The tab with the records [ms] appended to its store, each derived from
    its own polygon under the pixel sizes of the tab. *)
Definition with_recalculated (ms : list Measurement) (t : CellAnalyzerTab) : CellAnalyzerTab :=
  mkTab (image_width_um t) (image_height_um t) (pixel_width_um t) (pixel_height_um t)
    (contours t)
    (cell_measurements t ++
       map (fun m => derived_measurement (pixel_width_um t) (pixel_height_um t)
                       (id m) (contour_data m)) ms)
    (next_cell_id t) (line_start_point t) (img_color t) (img_gray t)
    (width_input t) (height_input t) (measurements_table t ++ map id ms)
    (line_length_label t) (log t).

(** The tab after a recalculation with the dimensions [w] and [h] on an
    image of [img_height_px] rows and [img_width_px] columns. *)
Definition recalculated (t : CellAnalyzerTab) (w h : float) (img_height_px img_width_px : Z) : CellAnalyzerTab :=
  let pw := PrimFloat.div w (float_of_int img_width_px) in
  let ph := PrimFloat.div h (float_of_int img_height_px) in
  mkTab w h pw ph (contours t)
    (map (fun m => derived_measurement pw ph (id m) (contour_data m))
         (cell_measurements t))
    (next_cell_id t) (line_start_point t) (img_color t) (img_gray t)
    (width_input t) (height_input t) (map id (cell_measurements t))
    (line_length_label t) (msg_dimensions_updated :: log t).

(** The contours that [analyze_image] keeps for the image [img]. *)
Definition detected (img : image) : list contour :=
  filter (fun c => PrimFloat.ltb (float_of_int MIN_CONTOUR_AREA) (contourArea c))
    (findContours
       (threshold_binary_inv (map (map gray_of_bgr) img) THRESHOLD_VALUE 255)).

(** The tab after [analyze_image] on the decoded image [img]. *)
Definition analyzed (t : CellAnalyzerTab) (img : image) : CellAnalyzerTab :=
  let color := cvtColor_swap img in
  mkTab (image_width_um t) (image_height_um t)
    (PrimFloat.div (image_width_um t) (float_of_int (snd (shape color))))
    (PrimFloat.div (image_height_um t) (float_of_int (fst (shape color))))
    (detected img) [] 1 (line_start_point t) (Some color)
    (Some (map (map gray_of_bgr) img)) (width_input t) (height_input t) []
    (line_length_label t) (msg_image_scaled :: log t).

(** The tab with the records [ms] appended to its store as they are. *)
Definition with_loaded (ms : list Measurement) (t : CellAnalyzerTab) : CellAnalyzerTab :=
  mkTab (image_width_um t) (image_height_um t) (pixel_width_um t) (pixel_height_um t)
    (contours t) (cell_measurements t ++ ms) (next_cell_id t) (line_start_point t)
    (img_color t) (img_gray t) (width_input t) (height_input t)
    (measurements_table t ++ map id ms) (line_length_label t) (log t).

(** The tab after [load_state] has restored [state], whose image decodes
    to [img]. *)
Definition restored (t : CellAnalyzerTab) (state : TabSnapshot) (img : image) : CellAnalyzerTab :=
  let w := get_default (s_image_width_um state) 100%float in
  let h := get_default (s_image_height_um state) 100%float in
  let ms := get_default (s_cell_measurements state) [] in
  let color := cvtColor_swap img in
  mkTab w h
    (PrimFloat.div w (float_of_int (snd (shape color))))
    (PrimFloat.div h (float_of_int (fst (shape color))))
    (detected img) ms (get_default (s_next_cell_id state) 1) (line_start_point t)
    (Some color) (Some (map (map gray_of_bgr) img)) (py_str w)
    (py_str (image_height_um t)) (map id ms) (line_length_label t)
    (msg_loaded (List.length ms) :: msg_image_scaled :: log t).

(** The tab after [load_state] has given up on a snapshot with the
    exception [e]. *)
Definition load_failed (t : CellAnalyzerTab) (e : exn) : CellAnalyzerTab :=
  set_log (msg_error_loading :: box_load_error e :: log t) t.

Definition has_image (t : CellAnalyzerTab) : bool :=
  match img_color t with
  | Some _ => true
  | None => false
  end.

(** The codecs give the image back: its encoded text is not empty, and
    decoding the text returns the image that was encoded. *)
Definition round_trips (img : image) : Prop :=
  b64encode (imencode_png img) <> "" /\
  exists data,
    b64decode (b64encode (imencode_png img)) = Some data /\
    imdecode_color data = Ok (Some img).

(** A tab that holds an image which the codecs give back, with at least
    one row and one column, and whose records can be drawn again. *)
Definition saveable (t : CellAnalyzerTab) : Prop :=
  exists color,
    img_color t = Some color /\
    round_trips (cvtColor_swap color) /\
    fst (shape color) <> 0 /\ snd (shape color) <> 0 /\
    forallb redrawable (cell_measurements t) = true.

(** A restored page has the title, the image, the physical dimensions,
    the measurement records and the id counter of the original page. *)
Definition same_content (original restored_page : string * CellAnalyzerTab) : Prop :=
  fst restored_page = fst original /\
  img_color (snd restored_page) = img_color (snd original) /\
  image_width_um (snd restored_page) = image_width_um (snd original) /\
  image_height_um (snd restored_page) = image_height_um (snd original) /\
  cell_measurements (snd restored_page) = cell_measurements (snd original) /\
  next_cell_id (snd restored_page) = next_cell_id (snd original).

(** The title under which [_load_project_from_path] adds a snapshot. *)
Definition loaded_title (state : TabSnapshot) : string :=
  get_default (s_title state) "Loaded Tab".

(** The pages that the loop of [_load_project_from_path] builds from the
    snapshots of a document, each in a new tab, up to the first snapshot
    whose load raises. *)
Fixpoint loaded_pages (states : list TabSnapshot) : list (string * CellAnalyzerTab) :=
  match states with
  | [] => []
  | state :: states' =>
      match load_state state new_tab with
      | (Ok _, loaded) => (loaded_title state, loaded) :: loaded_pages states'
      | (Raise _, _) => []
      end
  end.

(** The snapshot has no image data that [load_state] can decode from
    base64: the key is absent, or its text is empty or is refused by
    [b64decode]. *)
Definition no_image_data (state : TabSnapshot) : Prop :=
  s_image_b64 state = None \/
  exists s, s_image_b64 state = Some s /\ (s = "" \/ b64decode s = None).

(** The tab after a release that has reported the length [um_length]. *)
Definition released (t : CellAnalyzerTab) (um_length : float) : CellAnalyzerTab :=
  mkTab (image_width_um t) (image_height_um t) (pixel_width_um t) (pixel_height_um t)
    (contours t) (cell_measurements t) (next_cell_id t) None (img_color t)
    (img_gray t) (width_input t) (height_input t) (measurements_table t)
    (Some um_length) (msg_line_drawn um_length :: log t).

End Statements.

(** ** Concrete inputs

    Tabs, events and documents on which the model is run with the
    reference instance. *)

Module Examples.

Import Reference.

(** The rectangle with corners [(x, y)] and [(x + w - 1, y + h - 1)], in
    the order in which OpenCV lists the corners. *)
Definition rectangle (x y w h : Z) : contour :=
  [(x, y); (x, y + h - 1); (x + w - 1, y + h - 1); (x + w - 1, y)].

Definition far_cell : contour := rectangle 200 200 30 30.
Definition first_cell : contour := rectangle 10 10 50 40.
Definition second_cell : contour := rectangle 15 15 60 60.

(** A 2 x 2 image, white but for one dark pixel. *)
Definition small_image : image :=
  [[(255, 255, 255); (10, 20, 30)]; [(255, 255, 255); (255, 255, 255)]].

(** A tab with an image, 0.5 um per pixel in both directions, three
    detected contours and no measurement yet. *)
Definition three_cells : CellAnalyzerTab :=
  {| image_width_um := 1%float;
     image_height_um := 1%float;
     pixel_width_um := 0.5%float;
     pixel_height_um := 0.5%float;
     contours := [far_cell; first_cell; second_cell];
     cell_measurements := [];
     next_cell_id := 1;
     line_start_point := None;
     img_color := Some small_image;
     img_gray := Some (map (map luma) (cvtColor_swap small_image));
     width_input := "1.0";
     height_input := "1.0";
     measurements_table := [];
     line_length_label := None;
     log := [msg_image_scaled; msg_please_import] |}.

(** A left click at the scene point (20.5, 30.25), inside [first_cell] and
    [second_cell]. *)
Definition click_both : MouseEvent :=
  {| button := LeftButton; scene_pos := mkQPointF 20.5%float 30.25%float |}.

(** A drag from (3, 4) that is released at (6, 8). *)
Definition dragging : CellAnalyzerTab :=
  set_line_start_point (Some (mkQPointF 3%float 4%float)) three_cells.

Definition release_at_6_8 : MouseEvent :=
  {| button := LeftButton; scene_pos := mkQPointF 6%float 8%float |}.

(** A press of the left button at the scene point (0, 0), the top left
    corner of the image, and the tab after it. *)
Definition press_at_origin : MouseEvent :=
  {| button := LeftButton; scene_pos := mkQPointF 0%float 0%float |}.

Definition drag_from_origin : CellAnalyzerTab :=
  snd (handle_line_press press_at_origin three_cells).

(** A left click at (220, 210), inside [far_cell] only. *)
Definition click_far : MouseEvent :=
  {| button := LeftButton; scene_pos := mkQPointF 220%float 210%float |}.

(** Two cells are measured, the first is deleted, a third is measured. *)
Definition session : list StoreOp :=
  [Click click_both; Click click_far; DeleteSelected [O]; Click click_both].

Definition after_session : CellAnalyzerTab := run session three_cells.

(** [three_cells] after the click [click_both]: one measurement. *)
Definition measured : CellAnalyzerTab := snd (handle_click click_both three_cells).

(** The user has typed 2 um for both dimensions. *)
Definition recalibrating : CellAnalyzerTab := set_width_input "2" (set_height_input "2.0" measured).

(** The user has typed a number for the width only. *)
Definition half_typed : CellAnalyzerTab := set_width_input "200" (set_height_input "abc" measured).

Definition after_half_typed : CellAnalyzerTab := snd (recalculate_dimensions half_typed).

(** A tab as the application creates it. *)
Definition fresh_tab : CellAnalyzerTab := new_tab.

(** The text under which [save_state] stores [small_image]. *)
Definition small_image_b64 : string :=
  base64_encode (raw_encode (cvtColor_swap small_image)).

(** A snapshot with an image and nothing else. *)
Definition bare_snapshot : TabSnapshot :=
  {| s_title := None; s_image_b64 := Some small_image_b64;
     s_image_width_um := None; s_image_height_um := None;
     s_cell_measurements := None; s_next_cell_id := None |}.

(** A snapshot without image data. *)
Definition imageless_snapshot : TabSnapshot :=
  {| s_title := Some "Sample"; s_image_b64 := None;
     s_image_width_um := Some 2%float; s_image_height_um := Some 2%float;
     s_cell_measurements := Some (cell_measurements measured);
     s_next_cell_id := Some 2 |}.

(** A snapshot whose image text is base64 for three zero bytes, which are
    not an image. *)
Definition undecodable_snapshot : TabSnapshot :=
  {| s_title := Some "Broken"; s_image_b64 := Some "AAAA";
     s_image_width_um := Some 2%float; s_image_height_um := Some 2%float;
     s_cell_measurements := Some (cell_measurements measured);
     s_next_cell_id := Some 2 |}.

Definition undecodable_project : ProjectData :=
  {| version := Some "1.0"; tabs_key := Some [undecodable_snapshot] |}.


Definition empty_project : ProjectData :=
  {| version := Some "1.0"; tabs_key := Some [] |}.

Definition project_without_tabs : ProjectData :=
  {| version := Some "1.0"; tabs_key := None |}.

(** An application with two analysed images and one empty tab. *)
Definition open_app : CellAnalyzerApp :=
  {| tabs := [("Sample 1", measured); ("New Tab 2", new_tab); ("Sample 3", after_session)];
     app_log := [] |}.

(** The document that [save_project] writes for [open_app], and the
    application after loading it again. *)
Definition saved_project : ProjectData :=
  {| version := Some "1.0"; tabs_key := Some (project_states (tabs open_app)) |}.

Definition after_save : CellAnalyzerApp := snd (save_project open_app).

Definition reloaded : CellAnalyzerApp := snd (_load_project_from_path (Ok saved_project) open_app).

(** [open_app] after loading the documents above. *)
Definition after_undecodable : res bool * CellAnalyzerApp :=
  _load_project_from_path (Ok undecodable_project) open_app.


(** The same without the empty tab. *)
Definition two_images : CellAnalyzerApp :=
  {| tabs := [("Sample 1", measured); ("Sample 3", after_session)]; app_log := [] |}.

End Examples.

(** ** The event filter of the viewport *)

Inductive EventType : Type :=
| MouseButtonPress
| MouseMove
| MouseButtonRelease
| OtherEvent.

(** An event that reaches [eventFilter]: its type, its button and scene
    position, and whether [event.buttons() == Qt.LeftButton]. *)
Record ViewportEvent : Type := mkViewportEvent {
  event_type : EventType;
  mouse : MouseEvent;
  left_held : bool
}.

Section EventFilter.

Context {ext : External}.

(** [handle_line_move] moves the temporary line item only; none of the
    attributes kept in [CellAnalyzerTab] changes. *)
Definition handle_line_move (event : MouseEvent) : M CellAnalyzerTab unit :=
  ret tt.

(** [source_is_viewport] is [source == self.view.viewport()];
    [analyze_checked] and [draw_checked] are the states of the two radio
    buttons. *)
Definition eventFilter (source_is_viewport analyze_checked draw_checked : bool)
    (event : ViewportEvent) : M CellAnalyzerTab unit :=
  if source_is_viewport then
    t <- get ;;
    match img_color t with
    | None => ret tt
    | Some _ =>
        if analyze_checked then
          match event_type event, button (mouse event) with
          | MouseButtonPress, LeftButton => handle_click (mouse event)
          | _, _ => ret tt
          end
        else if draw_checked then
          match event_type event, button (mouse event) with
          | MouseButtonPress, LeftButton => handle_line_press (mouse event)
          | MouseMove, _ =>
              if left_held event then handle_line_move (mouse event) else ret tt
          | MouseButtonRelease, LeftButton => handle_line_release (mouse event)
          | _, _ => ret tt
          end
        else ret tt
    end
  else ret tt.

(** What the user does to one tab: a mouse event on the viewport or
    elsewhere, a press on "Delete Selected" or on "Recalculate", and typing
    into one of the two dimension fields. *)
Inductive UiOp : Type :=
| Filtered (source_is_viewport analyze_checked draw_checked : bool)
           (event : ViewportEvent)
| PressDelete (selected_rows : list nat)
| PressRecalculate
| TypeWidth (text : string)
| TypeHeight (text : string).

Definition apply_ui (op : UiOp) : M CellAnalyzerTab unit :=
  match op with
  | Filtered source_is_viewport analyze_checked draw_checked event =>
      eventFilter source_is_viewport analyze_checked draw_checked event
  | PressDelete selected_rows => delete_selected_measurement selected_rows
  | PressRecalculate => recalculate_dimensions
  | TypeWidth text => modify (set_width_input text)
  | TypeHeight text => modify (set_height_input text)
  end.

(** The handlers run one after the other; a handler that raises leaves the
    tab as it was when the exception was raised. *)
Fixpoint run_ui (ops : list UiOp) (t : CellAnalyzerTab) : CellAnalyzerTab :=
  match ops with
  | [] => t
  | op :: ops' => run_ui ops' (snd (apply_ui op t))
  end.

(** The table shows the ids of the records, in their order; the ids
    increase along the list and are below [next_cell_id]. *)
Definition table_matches_store (t : CellAnalyzerTab) : Prop :=
  measurements_table t = map id (cell_measurements t) /\
  StronglySorted Z.lt (map id (cell_measurements t)) /\
  Forall (fun m => id m < next_cell_id t) (cell_measurements t).

(** Every record is the one derived from its polygon under the current
    pixel sizes. *)
Definition derived_from_polygons (t : CellAnalyzerTab) : Prop :=
  Forall (fun m => m = derived_measurement (pixel_width_um t) (pixel_height_um t)
                         (id m) (contour_data m))
         (cell_measurements t).


(** The tab after [load_state] has restored [state], whose image text
    decodes to bytes that are not an image. *)
Definition restored_without_image (t : CellAnalyzerTab) (state : TabSnapshot) :
    CellAnalyzerTab :=
  let w := get_default (s_image_width_um state) 100%float in
  let h := get_default (s_image_height_um state) 100%float in
  let ms := get_default (s_cell_measurements state) [] in
  mkTab w h (pixel_width_um t) (pixel_height_um t) (contours t) ms
    (get_default (s_next_cell_id state) 1) (line_start_point t) (img_color t)
    (img_gray t) (py_str w) (py_str (image_height_um t))
    (measurements_table t ++ map id ms) (line_length_label t)
    (msg_loaded (List.length ms) :: msg_could_not_load :: log t).

End EventFilter.

(** ** Tab management of [CellAnalyzerApp] *)

(** The status messages of tab management; they are kept apart from the
    log of the project files. *)
Inductive shell_message : Type :=
| msg_tab_created (title : string)    (* "New tab 'title' created." *)
| msg_tab_closed.                     (* "Tab closed." *)

Record Window : Type := mkWindow {
  application : CellAnalyzerApp;
  shell_log : list shell_message
}.

(** [str(n)] for an int. *)
Definition str_of_int (n : Z) : string := Reference.decimal_of_Z n.

Section TabManagement.

Context {ext : External}.

Definition shell_status (m : shell_message) : M Window unit :=
  modify (fun w => mkWindow (application w) (m :: shell_log w)).

(** [add_new_tab(title=title)]; which tab is current is not kept. *)
Definition add_new_tab (title : option string) : M Window unit :=
  w <- get ;;
  let title :=
    match title with
    | Some given => given
    | None =>
        let tab_count := Z.of_nat (List.length (tabs (application w))) in
        append "New Tab " (str_of_int (tab_count + 1))
    end in
  let tab_widget := new_tab in
  modify (fun w => mkWindow (set_tabs (tabs (application w) ++ [(title, tab_widget)]) (application w))
                            (shell_log w)) ;;;
  shell_status (msg_tab_created title).

(** [close_tab(index)]; [answer_yes] is the answer to the question
    "Are you sure you want to close this tab?". *)
Definition close_tab (index : nat) (answer_yes : bool) : M Window unit :=
  w <- get ;;
  match tabs (application w) with
  | [] => ret tt
  | _ :: _ =>
      let tab_to_close := nth_error (tabs (application w)) index in
      if answer_yes then
        match tab_to_close with
        | None => raise AttributeError
        | Some _ =>
            modify (fun w => mkWindow (set_tabs (remove_row index (tabs (application w))) (application w))
                                      (shell_log w)) ;;;
            shell_status msg_tab_closed ;;;
            w' <- get ;;
            match tabs (application w') with
            | [] => add_new_tab None
            | _ :: _ => ret tt
            end
        end
      else ret tt
  end.

End TabManagement.

(** ** The effect of one operation on the store *)

Section StoreSteps.

Context {ext : External}.

(** The log has grown by messages none of which announces a new cell. *)
Definition quiet_log (t t' : CellAnalyzerTab) : Prop :=
  exists delta, log t' = delta ++ log t /\ assigned_ids delta = [].

(** The four ways in which an operation of the user interface leaves the
    store: as it was; with one record more, derived from a contour of the
    tab under the next id; without the records of one id and without one
    row; or with a prefix of its records derived again under the pixel
    sizes that the operation has set. *)
Inductive store_step (t t' : CellAnalyzerTab) : Prop :=
| step_kept :
    cell_measurements t' = cell_measurements t ->
    measurements_table t' = measurements_table t ->
    next_cell_id t' = next_cell_id t ->
    pixel_width_um t' = pixel_width_um t ->
    pixel_height_um t' = pixel_height_um t ->
    quiet_log t t' ->
    store_step t t'
| step_created (c : contour) (area : float) :
    In c (contours t) ->
    cell_measurements t' =
      cell_measurements t ++
        [derived_measurement (pixel_width_um t) (pixel_height_um t) (next_cell_id t) c] ->
    measurements_table t' = measurements_table t ++ [next_cell_id t] ->
    next_cell_id t' = next_cell_id t + 1 ->
    pixel_width_um t' = pixel_width_um t ->
    pixel_height_um t' = pixel_height_um t ->
    log t' = msg_cell_added (next_cell_id t) area :: log t ->
    store_step t t'
| step_deleted (row : nat) (cell_id : Z) :
    nth_error (measurements_table t) row = Some cell_id ->
    cell_measurements t' =
      filter (fun m => negb (id m =? cell_id)) (cell_measurements t) ->
    measurements_table t' = remove_row row (measurements_table t) ->
    next_cell_id t' = next_cell_id t ->
    pixel_width_um t' = pixel_width_um t ->
    pixel_height_um t' = pixel_height_um t ->
    quiet_log t t' ->
    store_step t t'
| step_recomputed (k : nat) :
    cell_measurements t' =
      map (fun m => derived_measurement (pixel_width_um t') (pixel_height_um t')
                      (id m) (contour_data m))
          (firstn k (cell_measurements t)) ->
    measurements_table t' = map id (firstn k (cell_measurements t)) ->
    next_cell_id t' = next_cell_id t ->
    quiet_log t t' ->
    store_step t t'.

End StoreSteps.

(** ** More concrete inputs *)

Module Sessions.

Import Reference.

Definition press_at (x y : float) : ViewportEvent :=
  {| event_type := MouseButtonPress;
     mouse := {| button := LeftButton; scene_pos := mkQPointF x y |};
     left_held := true |}.

Definition release_at (x y : float) : ViewportEvent :=
  {| event_type := MouseButtonRelease;
     mouse := {| button := LeftButton; scene_pos := mkQPointF x y |};
     left_held := false |}.

(** A cell is added, the dimensions are typed in two attempts, a line is
    drawn, the first cell is deleted and another one is added. *)
Definition ui_session : list UiOp :=
  [Filtered true true false (press_at 220 210);
   TypeWidth "2"; TypeHeight "abc"; PressRecalculate;
   TypeHeight "2"; PressRecalculate;
   Filtered true false true (press_at 3 4);
   Filtered true false true (release_at 6 8);
   PressDelete [O];
   Filtered true true false (press_at 20.5 30.25)].

Definition after_ui_session : CellAnalyzerTab := run_ui ui_session Examples.measured.

(** An image of 12 x 12 pixels with a dark square of 10 x 10 pixels. *)
Definition dark_square : image :=
  let white := (255, 255, 255) in
  let dark := (0, 0, 0) in
  repeat (repeat white 12) 1
  ++ repeat (white :: repeat dark 10 ++ [white]) 10
  ++ repeat (repeat white 12) 1.




(** The snapshot of [Examples.measured] under the reference codecs. *)
Definition measured_snapshot : TabSnapshot :=
  {| s_title := Some "Sample 1"; s_image_b64 := Some Examples.small_image_b64;
     s_image_width_um := Some 1%float; s_image_height_um := Some 1%float;
     s_cell_measurements := Some (cell_measurements Examples.measured);
     s_next_cell_id := Some 2 |}.

(** A record without polygon points. *)
Definition no_points : Measurement :=
  {| id := 2; area_um2 := 0%float; width_um := 0%float; height_um := 0%float;
     contour_data := [] |}.

Definition snapshot_with_empty_polygon : TabSnapshot :=
  {| s_title := Some "Sample 1"; s_image_b64 := Some Examples.small_image_b64;
     s_image_width_um := Some 1%float; s_image_height_um := Some 1%float;
     s_cell_measurements := Some (cell_measurements Examples.measured ++ [no_points]);
     s_next_cell_id := Some 3 |}.

Definition project_with_empty_polygon : ProjectData :=
  {| version := Some "1.0"; tabs_key := Some [snapshot_with_empty_polygon] |}.

Definition mixed_project : ProjectData :=
  {| version := Some "1.0";
     tabs_key := Some [measured_snapshot; Examples.imageless_snapshot;
                       Examples.bare_snapshot] |}.

Definition single_window : Window :=
  {| application := {| tabs := [("Sample 1", Examples.measured)]; app_log := [] |};
     shell_log := [] |}.

Definition line_press : MouseEvent :=
  {| button := LeftButton; scene_pos := mkQPointF 3%float 4%float |}.

(** A snapshot whose image text holds no character of the base64
    alphabet: it decodes to the empty buffer. *)
Definition empty_buffer_snapshot : TabSnapshot :=
  {| s_title := Some "Empty"; s_image_b64 := Some "!!!!";
     s_image_width_um := Some 2%float; s_image_height_um := Some 2%float;
     s_cell_measurements := Some [];
     s_next_cell_id := Some 1 |}.

Definition empty_buffer_project : ProjectData :=
  {| version := Some "1.0";
     tabs_key := Some [measured_snapshot; empty_buffer_snapshot; Examples.bare_snapshot] |}.

(** A snapshot of the dark square with one record of id 1 and with
    ["next_cell_id"] 1. *)
Definition snapshot_with_low_counter : TabSnapshot :=
  {| s_title := Some "Square";
     s_image_b64 := Some (base64_encode (raw_encode dark_square));
     s_image_width_um := Some 24%float; s_image_height_um := Some 12%float;
     s_cell_measurements := Some (cell_measurements Examples.measured);
     s_next_cell_id := Some 1 |}.

Definition click_in_square : MouseEvent :=
  {| button := LeftButton; scene_pos := mkQPointF 5.5%float 5%float |}.

(** A left click far from the three contours of [Examples.three_cells]. *)
Definition click_outside : MouseEvent :=
  {| button := LeftButton; scene_pos := mkQPointF 500%float 500%float |}.

End Sessions.

(** * Properties *)

(** ** General facts *)

Lemma swap_channels_involutive (p : pixel) : swap_channels (swap_channels p) = p.
Proof. destruct p as [[c0 c1] c2]. reflexivity. Qed.

Lemma cvtColor_swap_involutive (img : image) : cvtColor_swap (cvtColor_swap img) = img.
Proof.
  unfold cvtColor_swap. rewrite map_map.
  rewrite <- (map_id img) at 2. apply map_ext. intros row.
  rewrite map_map. rewrite <- (map_id row) at 2.
  apply map_ext. apply swap_channels_involutive.
Qed.

Lemma shape_map_map {A B : Type} (f : A -> B) (img : list (list A)) :
  shape (map (map f) img) = shape img.
Proof.
  unfold shape. rewrite length_map. destruct img as [|row img]; simpl.
  - reflexivity.
  - rewrite length_map. reflexivity.
Qed.

Lemma np_array_int32_ok (data : list point) :
  forallb point_in_int32 data = true -> np_array_int32 data = Ok data.
Proof. intros Hrange. unfold np_array_int32. rewrite Hrange. reflexivity. Qed.

Lemma Measurement_eta (m : Measurement) :
  {| id := id m; area_um2 := area_um2 m; width_um := width_um m;
     height_um := height_um m; contour_data := contour_data m |} = m.
Proof. destruct m. reflexivity. Qed.

(** ** Clicks *)

Section Clicks.

Context {ext : External}.

Lemma scan_hit (t : CellAnalyzerTab) (c : contour) (cs : list contour) (x y : float) (ix iy : Z) :
  py_int x = Ok ix -> py_int y = Ok iy ->
  holds_point c (ix, iy) = true -> c <> [] ->
  handle_click_scan (c :: cs) x y t = (Ok tt, clicked t c).
Proof.
  intros Hx Hy Hin Hc. unfold holds_point in Hin.
  cbn [handle_click_scan]. unfold bind at 1, lift. rewrite Hx.
  unfold bind at 1. rewrite Hy. rewrite Hin.
  unfold clicked, derived_measurement, to_area_um2, to_length_um.
  destruct (boundingRect c) as [[[x0 y0] w] h].
  destruct c as [|p c]; [congruence|].
  destruct t; reflexivity.
Qed.

Lemma scan_miss (t : CellAnalyzerTab) (c : contour) (cs : list contour) (x y : float) (ix iy : Z) :
  py_int x = Ok ix -> py_int y = Ok iy ->
  holds_point c (ix, iy) = false ->
  handle_click_scan (c :: cs) x y t = handle_click_scan cs x y t.
Proof.
  intros Hx Hy Hout. unfold holds_point in Hout.
  cbn [handle_click_scan]. unfold bind at 1, lift. rewrite Hx.
  unfold bind at 1. rewrite Hy. rewrite Hout. reflexivity.
Qed.

Lemma scan_first_match (t : CellAnalyzerTab) (before after : list contour) (c : contour)
    (x y : float) (ix iy : Z) :
  py_int x = Ok ix -> py_int y = Ok iy ->
  Forall (fun c' => holds_point c' (ix, iy) = false) before ->
  holds_point c (ix, iy) = true -> c <> [] ->
  handle_click_scan (before ++ c :: after) x y t = (Ok tt, clicked t c).
Proof.
  intros Hx Hy Hbefore Hin Hc.
  induction Hbefore as [|c' before Hout _ IH]; simpl app.
  - eapply scan_hit; eassumption.
  - rewrite (scan_miss t c' _ x y ix iy Hx Hy Hout). exact IH.
Qed.

Lemma scan_no_match (t : CellAnalyzerTab) (cs : list contour) (x y : float) (ix iy : Z) :
  py_int x = Ok ix -> py_int y = Ok iy ->
  Forall (fun c => holds_point c (ix, iy) = false) cs ->
  handle_click_scan cs x y t = (Ok tt, t).
Proof.
  intros Hx Hy Hall. induction Hall as [|c cs Hout _ IH].
  - reflexivity.
  - rewrite (scan_miss t c cs x y ix iy Hx Hy Hout). exact IH.
Qed.

(** C2: a left click at a scene point whose truncated coordinates are
    [(ix, iy)] binds to the first contour, in the order of [self.contours],
    that holds the point (boundary included): whatever contours follow it,
    exactly one record is appended, with id [next_cell_id], the area
    [contourArea * pixel_width_um * pixel_height_um], the bounding-box width
    times [pixel_width_um] and height times [pixel_height_um], and
    [next_cell_id] grows by one. *)
Theorem handle_click_first_match (t : CellAnalyzerTab) (event : MouseEvent) (ix iy : Z)
    (before after : list contour) (c : contour) (x0 y0 w h : Z) :
  button event = LeftButton ->
  py_int (qx (scene_pos event)) = Ok ix ->
  py_int (qy (scene_pos event)) = Ok iy ->
  contours t = before ++ c :: after ->
  Forall (fun c' => PrimFloat.leb 0%float (pointPolygonTest c' (ix, iy)) = false) before ->
  PrimFloat.leb 0%float (pointPolygonTest c (ix, iy)) = true ->
  c <> [] ->
  boundingRect c = (x0, y0, w, h) ->
  exists t',
    handle_click event t = (Ok tt, t') /\
    cell_measurements t' =
      cell_measurements t ++
        [ {| id := next_cell_id t;
             area_um2 :=
               PrimFloat.mul (PrimFloat.mul (contourArea c) (pixel_width_um t))
                             (pixel_height_um t);
             width_um := PrimFloat.mul (float_of_int w) (pixel_width_um t);
             height_um := PrimFloat.mul (float_of_int h) (pixel_height_um t);
             contour_data := c |} ] /\
    next_cell_id t' = next_cell_id t + 1 /\
    measurements_table t' = measurements_table t ++ [next_cell_id t] /\
    contours t' = contours t /\
    pixel_width_um t' = pixel_width_um t /\
    pixel_height_um t' = pixel_height_um t.
Proof.
  intros Hbutton Hx Hy Hcontours Hbefore Hin Hc Hrect.
  exists (clicked t c). split.
  - unfold handle_click. rewrite Hbutton. unfold bind at 1, get.
    rewrite Hcontours. eapply scan_first_match; eassumption.
  - unfold clicked, derived_measurement. rewrite Hrect. simpl. repeat split.
Qed.

End Clicks.

Lemma handle_click_first_match_witness :
  exists t',
    handle_click (ext := Reference.reference) Examples.click_both Examples.three_cells
      = (Ok tt, t') /\
    cell_measurements t' =
      [ {| id := 1;
           area_um2 :=
             PrimFloat.mul
               (PrimFloat.mul (Reference.polygon_area Examples.first_cell) 0.5%float)
               0.5%float;
           width_um := PrimFloat.mul (float_of_int 50) 0.5%float;
           height_um := PrimFloat.mul (float_of_int 40) 0.5%float;
           contour_data := Examples.first_cell |} ] /\
    next_cell_id t' = 2 /\
    measurements_table t' = [1] /\
    contours t' = contours Examples.three_cells /\
    pixel_width_um t' = 0.5%float /\
    pixel_height_um t' = 0.5%float.
Proof.
  apply (handle_click_first_match (ext := Reference.reference)
           Examples.three_cells Examples.click_both 20 30
           [Examples.far_cell] [Examples.second_cell] Examples.first_cell 10 10 50 40).
  - reflexivity.
  - vm_compute. reflexivity.
  - vm_compute. reflexivity.
  - reflexivity.
  - constructor; [vm_compute; reflexivity | constructor].
  - vm_compute. reflexivity.
  - discriminate.
  - vm_compute. reflexivity.
Defined.

(** ** Line measurements *)

Section Lines.

Context {ext : External}.

Lemma handle_line_release_unfold (event : MouseEvent) (t : CellAnalyzerTab) :
  handle_line_release event t =
  match line_start_point t with
  | Some start =>
      if QPointF_bool start then
        match line_um_length start (scene_pos event)
                (pixel_width_um t) (pixel_height_um t) with
        | Ok um_length => (Ok tt, released t um_length)
        | Raise e => (Raise e, t)
        end
      else (Ok tt, t)
  | None => (Ok tt, t)
  end.
Proof.
  unfold handle_line_release. cbn [bind get].
  destruct (line_start_point t) as [start|]; [|reflexivity].
  destruct (QPointF_bool start); [|reflexivity].
  unfold bind at 1, lift.
  destruct (line_um_length start (scene_pos event) (pixel_width_um t) (pixel_height_um t));
    [|reflexivity].
  destruct t; reflexivity.
Qed.

Lemma handle_line_release_keeps_store (t : CellAnalyzerTab) (event : MouseEvent) :
  let t' := snd (handle_line_release event t) in
  cell_measurements t' = cell_measurements t /\
  next_cell_id t' = next_cell_id t /\
  measurements_table t' = measurements_table t.
Proof.
  rewrite handle_line_release_unfold.
  destruct (line_start_point t) as [start|]; [|simpl; auto].
  destruct (QPointF_bool start); [|simpl; auto].
  destruct (line_um_length start (scene_pos event) (pixel_width_um t) (pixel_height_um t));
    simpl; auto.
Qed.

Lemma handle_line_press_keeps_store (t : CellAnalyzerTab) (event : MouseEvent) :
  let t' := snd (handle_line_press event t) in
  cell_measurements t' = cell_measurements t /\
  next_cell_id t' = next_cell_id t /\
  measurements_table t' = measurements_table t.
Proof. simpl. auto. Qed.

(** [x ** 2] raises nothing but [OverflowError]. *)
Lemma py_sq_raises (x : float) (e : exn) : py_sq x = Raise e -> e = OverflowError.
Proof.
  unfold py_sq.
  destruct (PrimFloat.is_nan x); [discriminate|].
  destruct (PrimFloat.is_infinity x); [discriminate|].
  destruct (PrimFloat.eqb x 0%float); [discriminate|].
  destruct (PrimFloat.eqb (PrimFloat.abs x) 1%float); [discriminate|].
  destruct (PrimFloat.is_infinity (c_pow2 (PrimFloat.abs x))); [|discriminate].
  intros Heq. injection Heq as <-. reflexivity.
Qed.

Lemma line_um_length_raises (start end_point : QPointF) (pw ph : float) (e : exn) :
  line_um_length start end_point pw ph = Raise e -> e = OverflowError.
Proof.
  unfold line_um_length.
  destruct (py_sq (PrimFloat.sub (qx end_point) (qx start))) as [sx|ex] eqn:Hx.
  - destruct (py_sq (PrimFloat.sub (qy end_point) (qy start))) as [sy|ey] eqn:Hy.
    + discriminate.
    + intros Heq. injection Heq as <-. eapply py_sq_raises. exact Hy.
  - intros Heq. injection Heq as <-. eapply py_sq_raises. exact Hx.
Qed.

(** A release that ends a drag from a point that is true as a [QPointF]
    reports the length of the line, when the two squares can be taken. *)
Lemma handle_line_release_measures (t : CellAnalyzerTab) (event : MouseEvent)
    (start : QPointF) (um_length : float) :
  line_start_point t = Some start ->
  QPointF_bool start = true ->
  line_um_length start (scene_pos event) (pixel_width_um t) (pixel_height_um t)
    = Ok um_length ->
  handle_line_release event t = (Ok tt, released t um_length).
Proof.
  intros Hstart Htrue Hlength.
  rewrite handle_line_release_unfold, Hstart, Htrue, Hlength. reflexivity.
Qed.

(** A release after a press at a point that is false as a [QPointF]
    measures nothing and leaves the tab as it is. *)
Lemma handle_line_release_skips (t : CellAnalyzerTab) (event : MouseEvent)
    (start : QPointF) :
  line_start_point t = Some start ->
  QPointF_bool start = false ->
  handle_line_release event t = (Ok tt, t).
Proof.
  intros Hstart Hfalse. rewrite handle_line_release_unfold, Hstart, Hfalse. reflexivity.
Qed.

End Lines.

(** C8: a drag that starts at the scene point (0, 0) is not measured.
    After a press at (0, 0), [line_start_point] holds the point, which is
    false as a [QPointF]; the release at (6, 8) then finds
    [if self.line_start_point:] false and leaves the tab as it is, with no
    length in the label and none reported, although the line from (0, 0)
    to (6, 8) has the length 5 um under the pixel sizes of the tab. *)
Theorem handle_line_release_from_origin :
  line_start_point Examples.drag_from_origin = Some (mkQPointF 0%float 0%float) /\
  QPointF_bool (External := Reference.reference) (mkQPointF 0%float 0%float) = false /\
  handle_line_release (ext := Reference.reference) Examples.release_at_6_8
    Examples.drag_from_origin = (Ok tt, Examples.drag_from_origin) /\
  line_length_label Examples.drag_from_origin = None /\
  log Examples.drag_from_origin = log Examples.three_cells /\
  line_um_length (ext := Reference.reference) (mkQPointF 0%float 0%float)
    (scene_pos Examples.release_at_6_8)
    (pixel_width_um Examples.drag_from_origin)
    (pixel_height_um Examples.drag_from_origin) = Ok 5%float.
Proof. vm_compute. repeat split. Qed.

(** ** Identifiers *)

Section Identifiers.

Context {ext : External}.

Lemma scan_cases (cs : list contour) (x y : float) (t : CellAnalyzerTab) :
  snd (handle_click_scan cs x y t) = t \/
  exists c, In c cs /\ handle_click_scan cs x y t = (Ok tt, clicked t c).
Proof.
  induction cs as [|c cs IH].
  - left. reflexivity.
  - destruct (py_int x) as [ix|e] eqn:Hx.
    2:{ left. cbn [handle_click_scan]. unfold bind, lift. rewrite Hx. reflexivity. }
    destruct (py_int y) as [iy|e] eqn:Hy.
    2:{ left. cbn [handle_click_scan]. unfold bind, lift. rewrite Hx, Hy. reflexivity. }
    destruct (holds_point c (ix, iy)) eqn:Hin.
    + destruct c as [|p c].
      * left. cbn [handle_click_scan]. unfold bind, lift, get. rewrite Hx, Hy.
        unfold holds_point in Hin. rewrite Hin.
        destruct (boundingRect []) as [[[x0 y0] w] h]. reflexivity.
      * right. exists (p :: c). split; [left; reflexivity|].
        apply (scan_hit t (p :: c) cs x y ix iy Hx Hy Hin). discriminate.
    + rewrite (scan_miss t c cs x y ix iy Hx Hy Hin).
      destruct IH as [IH|[c' [Hc' IH]]]; [left; exact IH|].
      right. exists c'. split; [right; exact Hc'|exact IH].
Qed.

Lemma handle_click_cases (event : MouseEvent) (t : CellAnalyzerTab) :
  snd (handle_click event t) = t \/
  exists c, In c (contours t) /\ handle_click event t = (Ok tt, clicked t c).
Proof.
  unfold handle_click. destruct (button event); try (left; reflexivity).
  unfold bind at 1, get. apply scan_cases.
Qed.

Lemma delete_unfold (selected_rows : list nat) (t : CellAnalyzerTab) :
  delete_selected_measurement selected_rows t =
  match selected_rows with
  | [] => (Ok tt, set_log (msg_no_selection :: log t) t)
  | row :: _ =>
      match nth_error (measurements_table t) row with
      | None => (Raise AttributeError, t)
      | Some cell_id =>
          match find (fun m => id m =? cell_id) (cell_measurements t) with
          | Some _ => (Ok tt, deleted t row cell_id)
          | None => (Ok tt, t)
          end
      end
  end.
Proof.
  destruct selected_rows as [|row rest]; [reflexivity|].
  unfold delete_selected_measurement, bind, get.
  destruct (nth_error (measurements_table t) row) as [cell_id|]; [|reflexivity].
  destruct (find (fun m => id m =? cell_id) (cell_measurements t)); [|reflexivity].
  destruct t; reflexivity.
Qed.

Lemma delete_cases (selected_rows : list nat) (t : CellAnalyzerTab) :
  snd (delete_selected_measurement selected_rows t) = t \/
  snd (delete_selected_measurement selected_rows t) = set_log (msg_no_selection :: log t) t \/
  exists row cell_id,
    In cell_id (map id (cell_measurements t)) /\
    snd (delete_selected_measurement selected_rows t) = deleted t row cell_id.
Proof.
  rewrite delete_unfold.
  destruct selected_rows as [|row rest]; [right; left; reflexivity|].
  destruct (nth_error (measurements_table t) row) as [cell_id|]; [|left; reflexivity].
  destruct (find (fun m => id m =? cell_id) (cell_measurements t)) as [m|] eqn:Hfind;
    [|left; reflexivity].
  right. right. exists row, cell_id. split; [|reflexivity].
  apply find_some in Hfind. destruct Hfind as [Hm Heq].
  apply Z.eqb_eq in Heq. subst cell_id. apply in_map. exact Hm.
Qed.

Lemma assigned_ids_app (l1 l2 : list message) :
  assigned_ids (l1 ++ l2) = assigned_ids l1 ++ assigned_ids l2.
Proof.
  induction l1 as [|m l1 IH]; [reflexivity|].
  destruct m; simpl; rewrite IH; reflexivity.
Qed.

(** What one operation does to the store: the log grows by [delta], the
    stored records below [next_cell_id] stay below it, and every record of
    the new store was there before or carries the id that [delta]
    announces. *)
Lemma apply_op_step (op : StoreOp) (t : CellAnalyzerTab) :
  Forall (fun m => id m < next_cell_id t) (cell_measurements t) ->
  let t' := snd (apply_op op t) in
  exists delta,
    log t' = delta ++ log t /\
    (assigned_ids delta = [] /\ next_cell_id t' = next_cell_id t \/
     assigned_ids delta = [next_cell_id t] /\ next_cell_id t' = next_cell_id t + 1) /\
    Forall (fun m => id m < next_cell_id t') (cell_measurements t') /\
    Forall (fun m => In m (cell_measurements t) \/ In (id m) (assigned_ids delta))
           (cell_measurements t').
Proof.
  intros Hbelow. cbv zeta.
  assert (Hsame : Forall (fun m => In m (cell_measurements t) \/ In (id m) [])
                         (cell_measurements t)).
  { apply Forall_forall. intros m Hm. left. exact Hm. }
  destruct op as [event|selected_rows]; cbn [apply_op].
  - destruct (handle_click_cases event t) as [Heq|[c [_ Heq]]]; rewrite Heq.
    + exists []. repeat split; auto.
    + cbn [snd]. exists [msg_cell_added (next_cell_id t)
               (area_um2 (derived_measurement (pixel_width_um t) (pixel_height_um t)
                                              (next_cell_id t) c))].
      unfold clicked. cbn. repeat split.
      * right. split; reflexivity.
      * apply Forall_app. split.
        -- eapply Forall_impl; [|exact Hbelow]. cbn. intros m Hm. lia.
        -- constructor; [cbn; lia|constructor].
      * apply Forall_app. split.
        -- apply Forall_forall. intros m Hm. left. exact Hm.
        -- constructor; [right; left; reflexivity|constructor].
  - destruct (delete_cases selected_rows t) as [Heq|[Heq|[row [cell_id [_ Heq]]]]];
      rewrite Heq.
    + exists []. repeat split; auto.
    + exists [msg_no_selection]. cbn. repeat split; auto.
    + exists [msg_deleted cell_id]. unfold deleted. cbn. repeat split; auto.
      * apply Forall_forall. intros m Hm. apply filter_In in Hm.
        rewrite Forall_forall in Hbelow. apply Hbelow. tauto.
      * apply Forall_forall. intros m Hm. apply filter_In in Hm. left. tauto.
Qed.

Lemma delete_keeps_next_cell_id (selected_rows : list nat) (t : CellAnalyzerTab) :
  let t' := snd (delete_selected_measurement selected_rows t) in
  next_cell_id t' = next_cell_id t /\
  exists keep, cell_measurements t' = filter keep (cell_measurements t).
Proof.
  cbv zeta.
  assert (Hall : cell_measurements t = filter (fun _ => true) (cell_measurements t)).
  { symmetry. apply forallb_filter_id. apply forallb_forall. reflexivity. }
  destruct (delete_cases selected_rows t) as [Heq|[Heq|[row [cell_id [_ Heq]]]]];
    rewrite Heq.
  - split; [reflexivity|]. exists (fun _ => true). exact Hall.
  - split; [reflexivity|]. exists (fun _ => true). exact Hall.
  - split; [reflexivity|]. exists (fun m => negb (id m =? cell_id)). reflexivity.
Qed.

Lemma run_ids (ops : list StoreOp) (t0 : CellAnalyzerTab) :
  Forall (fun m => id m < next_cell_id t0) (cell_measurements t0) ->
  exists new,
    log (run ops t0) = new ++ log t0 /\
    StronglySorted Z.lt (rev (assigned_ids new)) /\
    Forall (fun i => next_cell_id t0 <= i < next_cell_id (run ops t0)) (assigned_ids new) /\
    Forall (fun m => id m < next_cell_id (run ops t0)) (cell_measurements (run ops t0)) /\
    Forall (fun m => In m (cell_measurements t0) \/ In (id m) (assigned_ids new))
           (cell_measurements (run ops t0)) /\
    next_cell_id t0 <= next_cell_id (run ops t0).
Proof.
  revert t0. induction ops as [|op ops IH]; intros t0 Hbelow.
  - exists []. cbn. repeat split; auto using SSorted_nil; try lia.
    apply Forall_forall. intros m Hm. left. exact Hm.
  - cbn [run].
    destruct (apply_op_step op t0 Hbelow) as [delta [Hlog [Hnext [Hbelow1 Hfrom1]]]].
    set (t1 := snd (apply_op op t0)) in *.
    destruct (IH t1 Hbelow1) as [new [Hlog' [Hsorted [Hrange [Hbelow' [Hfrom' Hmono]]]]]].
    exists (new ++ delta).
    assert (Hle : next_cell_id t0 <= next_cell_id t1) by (destruct Hnext as [[_ E]|[_ E]]; lia).
    split; [rewrite Hlog', Hlog; apply app_assoc|].
    rewrite assigned_ids_app, rev_app_distr.
    split; [|split; [|split; [exact Hbelow'|split; [|lia]]]].
    + destruct Hnext as [[Hd _]|[Hd Hn]]; rewrite Hd; cbn [rev app]; [exact Hsorted|].
      constructor; [exact Hsorted|].
      apply Forall_rev. eapply Forall_impl; [|exact Hrange]. cbn. intros i Hi. lia.
    + apply Forall_app. split.
      * eapply Forall_impl; [|exact Hrange]. cbn. intros i Hi. lia.
      * destruct Hnext as [[Hd _]|[Hd Hn]]; rewrite Hd; [constructor|].
        constructor; [lia|constructor].
    + rewrite Forall_forall in Hfrom', Hfrom1. apply Forall_forall. intros m Hm.
      destruct (Hfrom' m Hm) as [Hin|Hin].
      * destruct (Hfrom1 m Hin) as [Hold|Hnew]; [left; exact Hold|].
        right. apply in_or_app. right. exact Hnew.
      * right. apply in_or_app. left. exact Hin.
Qed.

(** C4: from a store whose records have ids below [next_cell_id], after any
    sequence of clicks and deletions the ids announced since then, in the
    order of their creation, are strictly increasing (so none is used
    twice), are not below the initial [next_cell_id] (so none repeats an id
    of the initial store) and are below the final [next_cell_id], as is
    every id still in the store; every record left is an initial one or
    carries an announced id.  A deletion never changes [next_cell_id] and
    leaves the remaining records as they were. *)
Theorem ids_increase_and_are_never_reused (ops : list StoreOp) (t0 : CellAnalyzerTab) :
  Forall (fun m => id m < next_cell_id t0) (cell_measurements t0) ->
  (exists new,
     log (run ops t0) = new ++ log t0 /\
     StronglySorted Z.lt (rev (assigned_ids new)) /\
     Forall (fun i => next_cell_id t0 <= i < next_cell_id (run ops t0))
            (assigned_ids new) /\
     Forall (fun m => id m < next_cell_id (run ops t0))
            (cell_measurements (run ops t0)) /\
     Forall (fun m => In m (cell_measurements t0) \/ In (id m) (assigned_ids new))
            (cell_measurements (run ops t0)) /\
     next_cell_id t0 <= next_cell_id (run ops t0)) /\
  (forall (selected_rows : list nat) (t : CellAnalyzerTab),
     let t' := snd (delete_selected_measurement selected_rows t) in
     next_cell_id t' = next_cell_id t /\
     exists keep, cell_measurements t' = filter keep (cell_measurements t)).
Proof.
  intros Hbelow. split.
  - apply run_ids. exact Hbelow.
  - intros selected_rows t. apply delete_keeps_next_cell_id.
Qed.

End Identifiers.

Lemma ids_increase_and_are_never_reused_witness :
  (exists new,
     log Examples.after_session = new ++ log Examples.three_cells /\
     StronglySorted Z.lt (rev (assigned_ids new)) /\
     Forall (fun i => 1 <= i < next_cell_id Examples.after_session) (assigned_ids new) /\
     Forall (fun m => id m < next_cell_id Examples.after_session)
            (cell_measurements Examples.after_session) /\
     Forall (fun m => In m [] \/ In (id m) (assigned_ids new))
            (cell_measurements Examples.after_session) /\
     1 <= next_cell_id Examples.after_session) /\
  (forall (selected_rows : list nat) (t : CellAnalyzerTab),
     let t' := snd (delete_selected_measurement selected_rows t) in
     next_cell_id t' = next_cell_id t /\
     exists keep, cell_measurements t' = filter keep (cell_measurements t)).
Proof.
  apply (ids_increase_and_are_never_reused (ext := Reference.reference)
           Examples.session Examples.three_cells).
  simpl. constructor.
Defined.

(** ** Recalculation *)

Section Recalculation.

Context {ext : External}.

Lemma redrawable_contour (m : Measurement) :
  redrawable m = true ->
  contour_data m <> [] /\ np_array_int32 (contour_data m) = Ok (contour_data m).
Proof.
  unfold redrawable. intros Hm. destruct (contour_data m) as [|p c] eqn:Hc.
  - discriminate.
  - split; [discriminate|]. apply np_array_int32_ok. exact Hm.
Qed.

Lemma recalculate_one_ok (m : Measurement) (s : CellAnalyzerTab) :
  redrawable m = true ->
  recalculate_one m s = (Ok tt, with_recalculated [m] s).
Proof.
  intros Hm. apply redrawable_contour in Hm. destruct Hm as [Hne Hnp].
  unfold recalculate_one, bind at 1, lift. rewrite Hnp. cbv beta iota.
  unfold with_recalculated. cbn [map].
  unfold derived_measurement, to_area_um2, to_length_um.
  destruct (boundingRect (contour_data m)) as [[[x0 y0] w] h].
  destruct (contour_data m) as [|p c]; [congruence|].
  destruct s; reflexivity.
Qed.

Lemma with_recalculated_cons (m : Measurement) (ms : list Measurement) (s : CellAnalyzerTab) :
  with_recalculated ms (with_recalculated [m] s) = with_recalculated (m :: ms) s.
Proof.
  unfold with_recalculated. cbn. rewrite <- !app_assoc. reflexivity.
Qed.

Lemma recalculate_loop (ms : list Measurement) (s : CellAnalyzerTab) :
  forallb redrawable ms = true ->
  for_each ms recalculate_one s = (Ok tt, with_recalculated ms s).
Proof.
  revert s. induction ms as [|m ms IH]; intros s Hms.
  - unfold with_recalculated. cbn. rewrite !app_nil_r. destruct s; reflexivity.
  - cbn in Hms. apply andb_true_iff in Hms. destruct Hms as [Hm Hms].
    cbn [for_each]. unfold bind. rewrite (recalculate_one_ok m s Hm).
    rewrite (IH _ Hms). rewrite with_recalculated_cons. reflexivity.
Qed.

Lemma recalculate_dimensions_ok (t : CellAnalyzerTab) (w h : float) (g : gray_image) :
  py_float (width_input t) = Some w ->
  py_float (height_input t) = Some h ->
  img_gray t = Some g ->
  fst (shape g) <> 0 -> snd (shape g) <> 0 ->
  forallb redrawable (cell_measurements t) = true ->
  recalculate_dimensions t = (Ok tt, recalculated t w h (fst (shape g)) (snd (shape g))).
Proof.
  intros Hw Hh Hg Hrows Hcols Hms.
  unfold recalculate_dimensions, try_except, float_of_text.
  unfold bind at 1, get. rewrite Hw. unfold bind at 1, ret.
  unfold bind at 1, modify. cbn [width_input height_input set_image_width_um].
  rewrite Hh. unfold bind at 1. unfold bind at 1. rewrite Hg.
  destruct (shape g) as [img_height_px img_width_px]. cbn [fst snd] in *.
  unfold py_truediv.
  apply Z.eqb_neq in Hrows. apply Z.eqb_neq in Hcols.
  unfold bind at 1, lift. rewrite Hcols.
  unfold bind at 1. unfold bind at 1. rewrite Hrows.
  unfold bind at 1. unfold bind at 1, update_status, modify.
  unfold bind at 1, get. unfold bind at 1. unfold bind at 1.
  cbn [cell_measurements set_log set_pixel_height_um set_pixel_width_um
       set_image_height_um set_image_width_um].
  rewrite recalculate_loop by exact Hms.
  unfold with_recalculated, recalculated. cbn. reflexivity.
Qed.

Lemma derived_measurement_again (pw ph : float) (ms : list Measurement) :
  map (fun m => derived_measurement pw ph (id m) (contour_data m))
      (map (fun m => derived_measurement pw ph (id m) (contour_data m)) ms) =
  map (fun m => derived_measurement pw ph (id m) (contour_data m)) ms.
Proof. rewrite map_map. reflexivity. Qed.

Lemma redrawable_derived (pw ph : float) (ms : list Measurement) :
  forallb redrawable ms = true ->
  forallb redrawable
    (map (fun m => derived_measurement pw ph (id m) (contour_data m)) ms) = true.
Proof.
  intros Hms. rewrite forallb_forall in *. intros m' Hm'.
  apply in_map_iff in Hm'. destruct Hm' as [m [Heq Hm]]. subst m'.
  exact (Hms m Hm).
Qed.

(** C3: with an image loaded and numbers in both text fields, the
    recalculation replaces every record by the one derived from the
    record's own polygon under the new pixel sizes, keeping its id, its
    polygon and the order of the records; a second recalculation with the
    same fields returns the same records and pixel sizes. *)
Theorem recalculate_dimensions_recomputes (t : CellAnalyzerTab) (w h : float) (g : gray_image) :
  py_float (width_input t) = Some w ->
  py_float (height_input t) = Some h ->
  img_gray t = Some g ->
  fst (shape g) <> 0 -> snd (shape g) <> 0 ->
  forallb redrawable (cell_measurements t) = true ->
  let pw := PrimFloat.div w (float_of_int (snd (shape g))) in
  let ph := PrimFloat.div h (float_of_int (fst (shape g))) in
  exists t1 t2,
    recalculate_dimensions t = (Ok tt, t1) /\
    pixel_width_um t1 = pw /\ pixel_height_um t1 = ph /\
    cell_measurements t1 =
      map (fun m =>
             {| id := id m;
                area_um2 :=
                  PrimFloat.mul (PrimFloat.mul (contourArea (contour_data m)) pw) ph;
                width_um :=
                  PrimFloat.mul
                    (float_of_int (snd (fst (boundingRect (contour_data m))))) pw;
                height_um :=
                  PrimFloat.mul (float_of_int (snd (boundingRect (contour_data m)))) ph;
                contour_data := contour_data m |})
          (cell_measurements t) /\
    map id (cell_measurements t1) = map id (cell_measurements t) /\
    map contour_data (cell_measurements t1) = map contour_data (cell_measurements t) /\
    next_cell_id t1 = next_cell_id t /\
    recalculate_dimensions t1 = (Ok tt, t2) /\
    cell_measurements t2 = cell_measurements t1 /\
    pixel_width_um t2 = pixel_width_um t1 /\
    pixel_height_um t2 = pixel_height_um t1.
Proof.
  intros Hw Hh Hg Hrows Hcols Hms pw ph.
  set (t1 := recalculated t w h (fst (shape g)) (snd (shape g))).
  assert (H1 : recalculate_dimensions t = (Ok tt, t1))
    by (apply recalculate_dimensions_ok; assumption).
  assert (H2 : recalculate_dimensions t1
               = (Ok tt, recalculated t1 w h (fst (shape g)) (snd (shape g)))).
  { apply recalculate_dimensions_ok; try assumption.
    apply redrawable_derived. exact Hms. }
  exists t1, (recalculated t1 w h (fst (shape g)) (snd (shape g))).
  split; [exact H1|]. split; [reflexivity|]. split; [reflexivity|].
  split; [reflexivity|].
  split; [cbn; rewrite map_map; reflexivity|].
  split; [cbn; rewrite map_map; reflexivity|].
  split; [reflexivity|]. split; [exact H2|].
  split; [cbn; apply derived_measurement_again|]. split; reflexivity.
Qed.

End Recalculation.

Lemma recalculate_dimensions_recomputes_witness :
  exists t1 t2,
    recalculate_dimensions (ext := Reference.reference) Examples.recalibrating
      = (Ok tt, t1) /\
    pixel_width_um t1 = 1%float /\ pixel_height_um t1 = 1%float /\
    cell_measurements t1 =
      [ {| id := 1; area_um2 := 1911%float; width_um := 50%float;
           height_um := 40%float; contour_data := Examples.first_cell |} ] /\
    map id (cell_measurements t1) = [1] /\
    map contour_data (cell_measurements t1) = [Examples.first_cell] /\
    next_cell_id t1 = 2 /\
    recalculate_dimensions (ext := Reference.reference) t1 = (Ok tt, t2) /\
    cell_measurements t2 = cell_measurements t1 /\
    pixel_width_um t2 = pixel_width_um t1 /\
    pixel_height_um t2 = pixel_height_um t1.
Proof.
  refine (recalculate_dimensions_recomputes (ext := Reference.reference)
            Examples.recalibrating 2%float 2%float
            (map (map Reference.luma) (cvtColor_swap Examples.small_image))
            _ _ _ _ _ _).
  - vm_compute. reflexivity.
  - vm_compute. reflexivity.
  - reflexivity.
  - discriminate.
  - discriminate.
  - vm_compute. reflexivity.
Defined.

(** ** Text fields that are not numbers *)

Section InvalidInput.

Context {ext : External}.

Lemma recalculate_dimensions_bad_width (t : CellAnalyzerTab) :
  py_float (width_input t) = None ->
  recalculate_dimensions t = (Ok tt, set_log (msg_invalid_input :: log t) t).
Proof.
  intros Hw. unfold recalculate_dimensions, try_except, float_of_text.
  unfold bind at 1, get. rewrite Hw. reflexivity.
Qed.

Lemma recalculate_dimensions_bad_height (t : CellAnalyzerTab) (w : float) :
  py_float (width_input t) = Some w ->
  py_float (height_input t) = None ->
  recalculate_dimensions t
    = (Ok tt, set_log (msg_invalid_input :: log t) (set_image_width_um w t)).
Proof.
  intros Hw Hh. unfold recalculate_dimensions, try_except, float_of_text.
  unfold bind at 1, get. rewrite Hw. unfold bind at 1, ret.
  unfold bind at 1, modify. cbn [height_input set_image_width_um].
  rewrite Hh. reflexivity.
Qed.

End InvalidInput.

(** C5: on a tab of width 1 um whose width field reads "200" and whose
    height field reads "abc", the recalculation reports the invalid input
    and leaves the measurements and the pixel sizes as they were, but it
    has already stored 200 as [image_width_um]. *)
Theorem recalculate_dimensions_half_typed :
  Reference.decimal_float (width_input Examples.half_typed) = Some 200%float /\
  Reference.decimal_float (height_input Examples.half_typed) = None /\
  log Examples.after_half_typed = msg_invalid_input :: log Examples.half_typed /\
  cell_measurements Examples.after_half_typed = cell_measurements Examples.half_typed /\
  pixel_width_um Examples.after_half_typed = pixel_width_um Examples.half_typed /\
  pixel_height_um Examples.after_half_typed = pixel_height_um Examples.half_typed /\
  image_height_um Examples.after_half_typed = image_height_um Examples.half_typed /\
  image_width_um Examples.half_typed = 1%float /\
  image_width_um Examples.after_half_typed = 200%float.
Proof. vm_compute. repeat split. Qed.

(** ** Restoring a snapshot *)

Section Restoring.

Context {ext : External}.

Lemma analyze_image_ok (t : CellAnalyzerTab) (img : image) :
  fst (shape img) <> 0 -> snd (shape img) <> 0 ->
  analyze_image (Some img) t = (Ok tt, analyzed t img).
Proof.
  intros Hrows Hcols.
  assert (Hshape : shape (cvtColor_swap img) = shape img) by apply shape_map_map.
  unfold analyze_image, analyzed, detected. rewrite Hshape.
  destruct (shape img) as [img_height_px img_width_px]. cbn [fst snd] in *.
  apply Z.eqb_neq in Hrows. apply Z.eqb_neq in Hcols.
  unfold py_truediv. rewrite Hrows, Hcols.
  cbn [bind modify get lift].
  destruct t; reflexivity.
Qed.

Lemma load_one_ok (m : Measurement) (s : CellAnalyzerTab) :
  redrawable m = true -> load_one m s = (Ok tt, with_loaded [m] s).
Proof.
  intros Hm. apply redrawable_contour in Hm. destruct Hm as [Hne Hnp].
  unfold load_one, bind at 1, lift. rewrite Hnp. cbv beta iota.
  unfold with_loaded. rewrite <- (Measurement_eta m) at 6.
  destruct (contour_data m) as [|p c]; [congruence|].
  destruct s; reflexivity.
Qed.

Lemma with_loaded_cons (m : Measurement) (ms : list Measurement) (s : CellAnalyzerTab) :
  with_loaded ms (with_loaded [m] s) = with_loaded (m :: ms) s.
Proof. unfold with_loaded. cbn. rewrite <- !app_assoc. reflexivity. Qed.

Lemma load_loop (ms : list Measurement) (s : CellAnalyzerTab) :
  forallb redrawable ms = true ->
  for_each ms load_one s = (Ok tt, with_loaded ms s).
Proof.
  revert s. induction ms as [|m ms IH]; intros s Hms.
  - unfold with_loaded. cbn. rewrite !app_nil_r. destruct s; reflexivity.
  - cbn in Hms. apply andb_true_iff in Hms. destruct Hms as [Hm Hms].
    cbn [for_each]. unfold bind. rewrite (load_one_ok m s Hm).
    rewrite (IH _ Hms). rewrite with_loaded_cons. reflexivity.
Qed.

Lemma load_state_ok (t : CellAnalyzerTab) (state : TabSnapshot) (s : string) (data : bytes)
    (img : image) :
  s_image_b64 state = Some s -> s <> "" ->
  b64decode s = Some data ->
  imdecode_color data = Ok (Some img) ->
  fst (shape img) <> 0 -> snd (shape img) <> 0 ->
  forallb redrawable (get_default (s_cell_measurements state) []) = true ->
  load_state state t = (Ok tt, restored t state img).
Proof.
  intros Hb64 Hs Hdata Himg Hrows Hcols Hms.
  unfold load_state, try_except. rewrite Hb64.
  destruct s as [|ch s]; [congruence|].
  cbn [bind ret]. rewrite Hdata. cbn [bind ret lift]. rewrite Himg.
  cbn [bind ret modify get].
  cbv zeta. unfold bind at 1. rewrite analyze_image_ok by assumption.
  cbn [bind modify get]. unfold bind at 1. rewrite load_loop by exact Hms.
  cbn [bind get update_status modify].
  unfold restored, with_loaded, analyzed. cbn. reflexivity.
Qed.

Lemma load_state_no_image_data (t : CellAnalyzerTab) (state : TabSnapshot) :
  s_image_b64 state = None \/ s_image_b64 state = Some "" ->
  load_state state t
    = (Ok tt, load_failed t (ValueError "No image data found in state.")).
Proof.
  intros Hb64. unfold load_state, try_except.
  destruct Hb64 as [Hb64|Hb64]; rewrite Hb64; reflexivity.
Qed.

Lemma load_state_bad_base64 (t : CellAnalyzerTab) (state : TabSnapshot) (s : string) :
  s_image_b64 state = Some s -> s <> "" -> b64decode s = None ->
  load_state state t = (Ok tt, load_failed t (ValueError "Incorrect padding")).
Proof.
  intros Hb64 Hs Hdata. unfold load_state, try_except. rewrite Hb64.
  destruct s as [|ch s]; [congruence|].
  unfold bind at 1, ret. rewrite Hdata. reflexivity.
Qed.

(** An exception that leaves [load_state] is not one of those that its
    [except] clause names. *)
Lemma load_state_raises (state : TabSnapshot) (t t' : CellAnalyzerTab) (e : exn) :
  load_state state t = (Raise e, t') -> is_load_error e = false.
Proof.
  unfold load_state, try_except.
  match goal with |- context [match ?body t with _ => _ end] => destruct (body t) as [[u|e0] s0] end.
  - discriminate.
  - destruct (is_load_error e0) eqn:Hcaught.
    + discriminate.
    + intros Heq. injection Heq as He _. subst e0. exact Hcaught.
Qed.

End Restoring.

(** C10: a snapshot whose image decodes is restored without an error
    whatever other keys are absent: an absent ["image_width_um"] or
    ["image_height_um"] is read as 100.0, an absent ["next_cell_id"] as 1
    and an absent ["cell_measurements"] as the empty list.  A snapshot
    whose ["image_b64"] is absent or empty is refused with
    "No image data found in state." and leaves the tab as it was. *)
Theorem load_state_defaults {ext : External} (t : CellAnalyzerTab) (state : TabSnapshot) :
  (forall (s : string) (data : bytes) (img : image),
     s_image_b64 state = Some s -> s <> "" ->
     b64decode s = Some data ->
     imdecode_color data = Ok (Some img) ->
     fst (shape img) <> 0 -> snd (shape img) <> 0 ->
     forallb redrawable (get_default (s_cell_measurements state) []) = true ->
     exists t',
       load_state state t = (Ok tt, t') /\
       image_width_um t' =
         match s_image_width_um state with Some w => w | None => 100%float end /\
       image_height_um t' =
         match s_image_height_um state with Some h => h | None => 100%float end /\
       next_cell_id t' =
         match s_next_cell_id state with Some n => n | None => 1 end /\
       cell_measurements t' =
         match s_cell_measurements state with Some ms => ms | None => [] end /\
       log t' =
         msg_loaded (List.length (get_default (s_cell_measurements state) []))
         :: msg_image_scaled :: log t) /\
  (s_image_b64 state = None \/ s_image_b64 state = Some "" ->
   load_state state t =
     (Ok tt,
      set_log (msg_error_loading
               :: box_load_error (ValueError "No image data found in state.")
               :: log t) t)).
Proof.
  split.
  - intros s data img Hb64 Hs Hdata Himg Hrows Hcols Hms.
    exists (restored t state img). split.
    + eapply load_state_ok; eassumption.
    + unfold restored, get_default. cbn. repeat split.
  - intros Hb64. apply load_state_no_image_data. exact Hb64.
Qed.

Lemma load_state_defaults_witness :
  (exists t',
     load_state (ext := Reference.reference) Examples.bare_snapshot Examples.fresh_tab
       = (Ok tt, t') /\
     image_width_um t' = 100%float /\
     image_height_um t' = 100%float /\
     next_cell_id t' = 1 /\
     cell_measurements t' = [] /\
     log t' = [msg_loaded 0; msg_image_scaled; msg_please_import]) /\
  load_state (ext := Reference.reference) Examples.imageless_snapshot Examples.measured =
    (Ok tt,
     set_log (msg_error_loading
              :: box_load_error (ValueError "No image data found in state.")
              :: log Examples.measured) Examples.measured).
Proof.
  split.
  - refine (proj1 (load_state_defaults (ext := Reference.reference) Examples.fresh_tab
                     Examples.bare_snapshot)
              Examples.small_image_b64
              (Reference.raw_encode (cvtColor_swap Examples.small_image))
              (cvtColor_swap Examples.small_image) _ _ _ _ _ _ _).
    + reflexivity.
    + vm_compute. discriminate.
    + vm_compute. reflexivity.
    + vm_compute. reflexivity.
    + vm_compute. discriminate.
    + vm_compute. discriminate.
    + reflexivity.
  - refine (proj2 (load_state_defaults (ext := Reference.reference) Examples.measured
                     Examples.imageless_snapshot) _).
    left. reflexivity.
Defined.

(** ** Saving and loading a project *)

Section Projects.

Context {ext : External}.

Lemma save_state_no_image (parent_title : option string) (t : CellAnalyzerTab) :
  img_color t = None -> save_state parent_title t = None.
Proof. intros Hnone. unfold save_state. rewrite Hnone. reflexivity. Qed.

Lemma save_state_image (parent_title : option string) (t : CellAnalyzerTab) (color : image) :
  img_color t = Some color ->
  save_state parent_title t =
    Some {| s_title := Some (get_default parent_title "Untitled Tab");
            s_image_b64 := Some (b64encode (imencode_png (cvtColor_swap color)));
            s_image_width_um := Some (image_width_um t);
            s_image_height_um := Some (image_height_um t);
            s_cell_measurements := Some (cell_measurements t);
            s_next_cell_id := Some (next_cell_id t) |}.
Proof.
  intros Hcolor. unfold save_state. rewrite Hcolor.
  rewrite (map_ext _ (fun m => m) Measurement_eta), map_id. reflexivity.
Qed.

Lemma project_states_cons (title : string) (t : CellAnalyzerTab) (pages : list (string * CellAnalyzerTab)) :
  project_states ((title, t) :: pages) =
  match save_state None t with
  | Some state => set_title title state :: project_states pages
  | None => project_states pages
  end.
Proof.
  unfold project_states. cbn [flat_map fst snd].
  destruct (save_state None t); reflexivity.
Qed.

Lemma project_states_titles (pages : list (string * CellAnalyzerTab)) :
  map s_title (project_states pages) =
  map (fun page => Some (fst page)) (filter (fun page => has_image (snd page)) pages).
Proof.
  induction pages as [|[title t] pages IH]; [reflexivity|].
  rewrite project_states_cons. cbn [filter fst snd]. unfold has_image at 1, save_state.
  destruct (img_color t) as [color|]; cbn; rewrite IH; reflexivity.
Qed.

Lemma project_states_have_images (pages : list (string * CellAnalyzerTab)) :
  Forall (fun state => exists s, s_image_b64 state = Some s) (project_states pages).
Proof.
  induction pages as [|[title t] pages IH]; [constructor|].
  rewrite project_states_cons. unfold save_state.
  destruct (img_color t) as [color|]; [|exact IH].
  constructor; [|exact IH]. eexists. reflexivity.
Qed.

Lemma load_tab_unfold (tab_state : TabSnapshot) (a : CellAnalyzerApp) :
  load_tab tab_state a =
  match load_state tab_state new_tab with
  | (Ok _, loaded) =>
      (Ok tt, set_tabs (tabs a ++ [(get_default (s_title tab_state) "Loaded Tab", loaded)]) a)
  | (Raise e, _) => (Raise e, a)
  end.
Proof.
  unfold load_tab. destruct (load_state tab_state new_tab) as [[u|e] loaded]; reflexivity.
Qed.

(** The pages that the loop of [_load_project_from_path] adds when no
    exception leaves it. *)
Lemma load_tabs_ok (states : list TabSnapshot) (a a' : CellAnalyzerApp) :
  for_each states load_tab a = (Ok tt, a') ->
  tabs a' =
    tabs a ++ map (fun state => (get_default (s_title state) "Loaded Tab",
                                 snd (load_state state new_tab))) states /\
  app_log a' = app_log a.
Proof.
  revert a. induction states as [|state states IH]; intros a Hrun.
  - cbn in Hrun. injection Hrun as <-. rewrite app_nil_r. split; reflexivity.
  - cbn [for_each] in Hrun. unfold bind in Hrun. rewrite load_tab_unfold in Hrun.
    destruct (load_state state new_tab) as [[u|e] loaded] eqn:Hload; [|discriminate].
    apply IH in Hrun. destruct Hrun as [Htabs Hlog]. cbn in Htabs, Hlog.
    rewrite Htabs, <- app_assoc. cbn [map]. rewrite Hload.
    split; [reflexivity|exact Hlog].
Qed.

Lemma load_tabs_raises (states : list TabSnapshot) (a a' : CellAnalyzerApp) (e : exn) :
  for_each states load_tab a = (Raise e, a') -> is_load_error e = false.
Proof.
  revert a. induction states as [|state states IH]; intros a Hrun.
  - discriminate.
  - cbn [for_each] in Hrun. unfold bind in Hrun. rewrite load_tab_unfold in Hrun.
    destruct (load_state state new_tab) as [[u|e0] loaded] eqn:Hload.
    + eapply IH. exact Hrun.
    + injection Hrun as <- _. eapply load_state_raises. exact Hload.
Qed.

Lemma load_tabs_ignore_pages (states : list TabSnapshot) (a : CellAnalyzerApp)
    (pages : list (string * CellAnalyzerTab)) :
  for_each states load_tab (set_tabs (pages ++ tabs a) a) =
  (fst (for_each states load_tab a),
   set_tabs (pages ++ tabs (snd (for_each states load_tab a)))
            (snd (for_each states load_tab a))).
Proof.
  revert a. induction states as [|state states IH]; intros a.
  - reflexivity.
  - cbn [for_each]. unfold bind. rewrite !load_tab_unfold.
    destruct (load_state state new_tab) as [[u|e] loaded]; [|reflexivity].
    cbn [tabs set_tabs app_log]. rewrite <- app_assoc.
    specialize (IH (set_tabs (tabs a ++ [(get_default (s_title state) "Loaded Tab", loaded)]) a)).
    cbn [tabs set_tabs app_log] in IH. exact IH.
Qed.


Lemma load_project_without_tabs (doc : ProjectData) (a : CellAnalyzerApp) :
  tabs_key doc = None ->
  _load_project_from_path (Ok doc) a =
    (Ok false,
     mkApp (tabs a)
       (msg_error_loading
        :: box_load_error (ValueError "Invalid project file format.") :: app_log a)).
Proof.
  intros Hnone. unfold _load_project_from_path, try_except. cbn [bind lift].
  rewrite Hnone. reflexivity.
Qed.

Lemma load_project_with_tabs (doc : ProjectData) (states : list TabSnapshot) (a : CellAnalyzerApp) :
  tabs_key doc = Some states ->
  _load_project_from_path (Ok doc) a =
  match for_each states load_tab (set_tabs [] a) with
  | (Ok _, a') => (Ok true, mkApp (tabs a') (msg_project_loaded :: app_log a'))
  | (Raise e, a') => (Raise e, a')
  end.
Proof.
  intros Hsome. unfold _load_project_from_path, try_except. cbn [bind lift].
  rewrite Hsome. cbn [bind ret modify]. unfold bind at 1.
  destruct (for_each states load_tab (set_tabs [] a)) as [[u|e] a'] eqn:Hrun.
  - reflexivity.
  - rewrite (load_tabs_raises _ _ _ _ Hrun). reflexivity.
Qed.

(** C9: a tab without an image has no snapshot; the saved document holds
    one snapshot, under the tab's title and with image data, for each tab
    that has an image and none for the others; and a load of that
    document that completes restores exactly the tabs that had an
    image. *)
Theorem save_project_omits_tabs_without_image (a a1 a0 a2 : CellAnalyzerApp) (doc : ProjectData) :
  save_project a = (Ok (Some doc), a1) ->
  _load_project_from_path (Ok doc) a0 = (Ok true, a2) ->
  (forall (parent_title : option string) (t : CellAnalyzerTab),
     img_color t = None -> save_state parent_title t = None) /\
  (exists states,
     tabs_key doc = Some states /\
     map s_title states =
       map (fun page => Some (fst page))
           (filter (fun page => has_image (snd page)) (tabs a)) /\
     Forall (fun state => exists s, s_image_b64 state = Some s) states) /\
  map fst (tabs a2) = map fst (filter (fun page => has_image (snd page)) (tabs a)).
Proof.
  intros Hsave Hload.
  assert (Hdoc : tabs_key doc = Some (project_states (tabs a))).
  { unfold save_project in Hsave. cbn [bind get] in Hsave.
    destruct (tabs a) as [|page pages]; cbn in Hsave; [discriminate|].
    injection Hsave as <- _. reflexivity. }
  split; [intros parent_title t; apply save_state_no_image|].
  split.
  - exists (project_states (tabs a)). split; [exact Hdoc|].
    split; [apply project_states_titles|apply project_states_have_images].
  - rewrite (load_project_with_tabs doc _ a0 Hdoc) in Hload.
    destruct (for_each (project_states (tabs a)) load_tab (set_tabs [] a0))
      as [[u|e] a'] eqn:Hrun; [|discriminate].
    injection Hload as <-. cbn [tabs].
    destruct u. apply load_tabs_ok in Hrun. destruct Hrun as [Htabs _].
    rewrite Htabs. cbn [tabs set_tabs app]. rewrite map_map. cbn [fst].
    pose proof (project_states_titles (tabs a)) as Htitles.
    rewrite <- (map_map s_title (fun title => get_default title "Loaded Tab")).
    rewrite Htitles, map_map. reflexivity.
Qed.

End Projects.

Lemma save_project_omits_tabs_without_image_witness :
  (forall (parent_title : option string) (t : CellAnalyzerTab),
     img_color t = None -> save_state (ext := Reference.reference) parent_title t = None) /\
  (exists states,
     tabs_key Examples.saved_project = Some states /\
     map s_title states = [Some "Sample 1"; Some "Sample 3"] /\
     Forall (fun state => exists s, s_image_b64 state = Some s) states) /\
  map fst (tabs Examples.reloaded) = ["Sample 1"; "Sample 3"].
Proof.
  refine (save_project_omits_tabs_without_image (ext := Reference.reference)
            Examples.open_app Examples.after_save Examples.open_app Examples.reloaded
            Examples.saved_project _ _).
  - vm_compute. reflexivity.
  - vm_compute. reflexivity.
Defined.

(** ** The round trip *)

Section RoundTrip.

Context {ext : External}.

Lemma shape_cvtColor_swap (img : image) : shape (cvtColor_swap img) = shape img.
Proof. apply shape_map_map. Qed.

(** Restoring the snapshot of a saveable tab into a new tab. *)
Lemma load_saved_page (title : string) (t : CellAnalyzerTab) :
  saveable t ->
  exists state loaded,
    save_state None t = Some state /\
    load_state (set_title title state) new_tab = (Ok tt, loaded) /\
    get_default (s_title (set_title title state)) "Loaded Tab" = title /\
    same_content (title, t) (title, loaded).
Proof.
  intros [color [Hcolor [[Hnonempty [data [Hdata Himg]]] [Hrows [Hcols Hms]]]]].
  eexists. eexists. split; [apply save_state_image; exact Hcolor|].
  split.
  - eapply load_state_ok.
    + reflexivity.
    + exact Hnonempty.
    + exact Hdata.
    + exact Himg.
    + rewrite shape_cvtColor_swap. exact Hrows.
    + rewrite shape_cvtColor_swap. exact Hcols.
    + exact Hms.
  - split; [reflexivity|]. unfold same_content, restored. cbn.
    rewrite cvtColor_swap_involutive, Hcolor. repeat split.
Qed.

Lemma load_saved_pages (pages : list (string * CellAnalyzerTab)) (a : CellAnalyzerApp) :
  Forall (fun page => saveable (snd page)) pages ->
  exists pages',
    for_each (project_states pages) load_tab a = (Ok tt, set_tabs (tabs a ++ pages') a) /\
    Forall2 same_content pages pages'.
Proof.
  intros Hpages. revert a. induction Hpages as [|[title t] pages Hpage _ IH]; intros a.
  - exists []. split; [|constructor]. cbn. rewrite app_nil_r. destruct a; reflexivity.
  - cbn [snd] in Hpage.
    destruct (load_saved_page title t Hpage) as [state [loaded [Hsave [Hload [Htitle Hsame]]]]].
    rewrite project_states_cons, Hsave. cbn [for_each]. unfold bind.
    rewrite load_tab_unfold, Hload, Htitle.
    destruct (IH (set_tabs (tabs a ++ [(title, loaded)]) a)) as [pages' [Hrun Hall]].
    exists ((title, loaded) :: pages'). split.
    + rewrite Hrun. cbn [tabs set_tabs app_log]. rewrite <- app_assoc. reflexivity.
    + constructor; assumption.
Qed.

(** C1: when every tab holds an image that the PNG and base64 codecs give
    back, loading the document that [save_project] writes succeeds and
    yields, tab for tab and in the same order, the same title, the same
    image, the same physical width and height, the same measurement
    records (id, polygon, area, width and height, all equal and not only
    close) and the same [next_cell_id]. *)
Theorem project_round_trip (a a0 : CellAnalyzerApp) :
  tabs a <> [] ->
  Forall (fun page => saveable (snd page)) (tabs a) ->
  exists doc a1 a2,
    save_project a = (Ok (Some doc), a1) /\
    _load_project_from_path (Ok doc) a0 = (Ok true, a2) /\
    Forall2 same_content (tabs a) (tabs a2).
Proof.
  intros Hnonempty Hpages.
  destruct (load_saved_pages (tabs a) (set_tabs [] a0) Hpages) as [pages' [Hrun Hall]].
  exists {| version := Some "1.0"; tabs_key := Some (project_states (tabs a)) |}.
  eexists. eexists. split; [|split].
  - unfold save_project. cbn [bind get].
    destruct (tabs a) as [|page pages]; [congruence|]. reflexivity.
  - rewrite (load_project_with_tabs
               {| version := Some "1.0"; tabs_key := Some (project_states (tabs a)) |}
               (project_states (tabs a)) a0 eq_refl).
    rewrite Hrun. reflexivity.
  - exact Hall.
Qed.

End RoundTrip.

Lemma project_round_trip_witness :
  exists doc a1 a2,
    save_project (ext := Reference.reference) Examples.two_images = (Ok (Some doc), a1) /\
    _load_project_from_path (ext := Reference.reference) (Ok doc) Examples.open_app
      = (Ok true, a2) /\
    Forall2 same_content (tabs Examples.two_images) (tabs a2).
Proof.
  apply (project_round_trip (ext := Reference.reference)
           Examples.two_images Examples.open_app).
  - discriminate.
  - assert (Hcodec : round_trips (ext := Reference.reference)
                       (cvtColor_swap Examples.small_image)).
    { split; [vm_compute; discriminate|].
      eexists. split; vm_compute; reflexivity. }
    constructor; [|constructor; [|constructor]].
    + exists Examples.small_image. split; [reflexivity|]. split; [exact Hcodec|].
      split; [vm_compute; discriminate|]. split; [vm_compute; discriminate|].
      vm_compute. reflexivity.
    + exists Examples.small_image. split; [reflexivity|]. split; [exact Hcodec|].
      split; [vm_compute; discriminate|]. split; [vm_compute; discriminate|].
      vm_compute. reflexivity.
Defined.

(** ** Loads that fail *)

Section FailedLoads.

Context {ext : External}.

Lemma load_tabs_result (states : list TabSnapshot) (a : CellAnalyzerApp) :
  snd (for_each states load_tab a) = set_tabs (tabs a ++ loaded_pages states) a.
Proof.
  revert a. induction states as [|state states IH]; intros a.
  - cbn. rewrite app_nil_r. destruct a; reflexivity.
  - cbn [for_each loaded_pages]. unfold bind. rewrite load_tab_unfold.
    destruct (load_state state new_tab) as [[u|e] loaded].
    + rewrite IH. cbn [tabs set_tabs]. rewrite <- app_assoc. reflexivity.
    + cbn. rewrite app_nil_r. destruct a; reflexivity.
Qed.

Lemma load_project_tabs (doc : ProjectData) (states : list TabSnapshot) (a : CellAnalyzerApp) :
  tabs_key doc = Some states ->
  tabs (snd (_load_project_from_path (Ok doc) a)) = loaded_pages states.
Proof.
  intros Hsome. rewrite (load_project_with_tabs doc states a Hsome).
  pose proof (load_tabs_result states (set_tabs [] a)) as Hresult.
  destruct (for_each states load_tab (set_tabs [] a)) as [[u|e] a'];
    cbn [snd] in *; rewrite Hresult; reflexivity.
Qed.


Lemma load_state_without_image_data (t : CellAnalyzerTab) (state : TabSnapshot) :
  no_image_data state -> exists e, load_state state t = (Ok tt, load_failed t e).
Proof.
  intros [Hnone|[s [Hsome [Hempty|Hbad]]]].
  - eexists. apply load_state_no_image_data. left. exact Hnone.
  - eexists. apply load_state_no_image_data. right. rewrite Hsome, Hempty. reflexivity.
  - destruct s as [|ch s].
    + eexists. apply load_state_no_image_data. right. exact Hsome.
    + eexists. eapply load_state_bad_base64; [exact Hsome|discriminate|exact Hbad].
Qed.


(** C7, as the program has it: the load returns [False] exactly when the
    document has no ["tabs"] key; a document with an empty ["tabs"] list
    loads to zero tabs without an error; and a snapshot without image data
    that base64 can decode makes [load_state] report a load error and leave
    the tab, its measurements included, as it was. *)
Theorem load_fails_without_tabs_key (a : CellAnalyzerApp) (doc : ProjectData) :
  (fst (_load_project_from_path (Ok doc) a) = Ok false <-> tabs_key doc = None) /\
  (tabs_key doc = Some [] ->
   _load_project_from_path (Ok doc) a
     = (Ok true, mkApp [] (msg_project_loaded :: app_log a))) /\
  (forall (state : TabSnapshot) (t : CellAnalyzerTab),
     no_image_data state ->
     exists e,
       load_state state t
         = (Ok tt, set_log (msg_error_loading :: box_load_error e :: log t) t) /\
       cell_measurements (snd (load_state state t)) = cell_measurements t /\
       next_cell_id (snd (load_state state t)) = next_cell_id t).
Proof.
  split; [split|split].
  - intros Hfalse. destruct (tabs_key doc) as [states|] eqn:Hkey; [|reflexivity].
    rewrite (load_project_with_tabs doc states a Hkey) in Hfalse.
    destruct (for_each states load_tab (set_tabs [] a)) as [[u|e] a']; discriminate.
  - intros Hnone. rewrite (load_project_without_tabs doc a Hnone). reflexivity.
  - intros Hempty. rewrite (load_project_with_tabs doc [] a Hempty). reflexivity.
  - intros state t Hdata.
    destruct (load_state_without_image_data t state Hdata) as [e Hload].
    exists e. rewrite Hload. repeat split.
Qed.

End FailedLoads.



(** C7 fails as stated: the document whose only snapshot holds bytes that
    are not an image loads with the result [True], and the measurement of
    the snapshot is in the store of the new tab. *)
Lemma undecodable_image_is_loaded :
  (exists data,
     Reference.base64_decode "AAAA" = Some data /\ Reference.raw_decode data = None) /\
  fst Examples.after_undecodable = Ok true /\
  map (fun page => cell_measurements (snd page)) (tabs (snd Examples.after_undecodable))
    = [cell_measurements Examples.measured] /\
  cell_measurements Examples.measured <> [].
Proof.
  split; [eexists; split; vm_compute; reflexivity|].
  split; [vm_compute; reflexivity|].
  split; [vm_compute; reflexivity|].
  vm_compute. discriminate.
Qed.

Lemma load_fails_without_tabs_key_witness :
  (fst (_load_project_from_path (ext := Reference.reference)
          (Ok Examples.project_without_tabs) Examples.open_app) = Ok false <->
   tabs_key Examples.project_without_tabs = None) /\
  _load_project_from_path (ext := Reference.reference) (Ok Examples.empty_project)
    Examples.open_app = (Ok true, mkApp [] [msg_project_loaded]) /\
  exists e,
    load_state (ext := Reference.reference) Examples.imageless_snapshot Examples.measured
      = (Ok tt, set_log (msg_error_loading :: box_load_error e :: log Examples.measured)
                  Examples.measured) /\
    cell_measurements
      (snd (load_state (ext := Reference.reference) Examples.imageless_snapshot
              Examples.measured)) = cell_measurements Examples.measured /\
    next_cell_id
      (snd (load_state (ext := Reference.reference) Examples.imageless_snapshot
              Examples.measured)) = next_cell_id Examples.measured.
Proof.
  split; [|split].
  - exact (proj1 (load_fails_without_tabs_key (ext := Reference.reference)
                    Examples.open_app Examples.project_without_tabs)).
  - exact (proj1 (proj2 (load_fails_without_tabs_key (ext := Reference.reference)
                           Examples.open_app Examples.empty_project)) eq_refl).
  - apply (proj2 (proj2 (load_fails_without_tabs_key (ext := Reference.reference)
                           Examples.open_app Examples.empty_project))).
    left. reflexivity.
Defined.

(** ** Further properties of the store *)

Section Store.

Context {ext : External}.

(** X16: a left click at a point that no contour holds adds no record and
    reports nothing: the tab is exactly as before. *)
Lemma handle_click_no_match (t : CellAnalyzerTab) (event : MouseEvent) (ix iy : Z) :
  py_int (qx (scene_pos event)) = Ok ix ->
  py_int (qy (scene_pos event)) = Ok iy ->
  Forall (fun c => holds_point c (ix, iy) = false) (contours t) ->
  handle_click event t = (Ok tt, t).
Proof.
  intros Hx Hy Hall. unfold handle_click.
  destruct (button event); try reflexivity.
  cbn [bind get]. eapply scan_no_match; eassumption.
Qed.

(** Deleting while the selected row shows an id that no record carries
    changes nothing. *)
Lemma delete_absent_id (t : CellAnalyzerTab) (row : nat) (rows : list nat) (cell_id : Z) :
  nth_error (measurements_table t) row = Some cell_id ->
  ~ In cell_id (map id (cell_measurements t)) ->
  delete_selected_measurement (row :: rows) t = (Ok tt, t).
Proof.
  intros Hrow Habsent. rewrite delete_unfold, Hrow.
  destruct (find (fun m => id m =? cell_id) (cell_measurements t)) as [m|] eqn:Hfind;
    [|reflexivity].
  exfalso. apply Habsent. apply find_some in Hfind. destruct Hfind as [Hm Heq].
  apply Z.eqb_eq in Heq. subst cell_id. apply in_map. exact Hm.
Qed.

(** Records created by clicks on contours that have a point and 32-bit
    coordinates can be drawn again, and stay so under deletions. *)
Lemma apply_op_redrawable (op : StoreOp) (t : CellAnalyzerTab) :
  Forall (fun c => c <> [] /\ forallb point_in_int32 c = true) (contours t) ->
  forallb redrawable (cell_measurements t) = true ->
  let t' := snd (apply_op op t) in
  contours t' = contours t /\ forallb redrawable (cell_measurements t') = true.
Proof.
  intros Hcontours Hms. cbv zeta. destruct op as [event|selected_rows]; cbn [apply_op].
  - destruct (handle_click_cases event t) as [Heq|[c [Hc Heq]]]; rewrite Heq.
    + split; [reflexivity|exact Hms].
    + cbn [snd]. unfold clicked. cbn [contours cell_measurements].
      split; [reflexivity|]. rewrite forallb_app, Hms. cbn.
      rewrite Forall_forall in Hcontours. destruct (Hcontours c Hc) as [Hne Hrange].
      unfold redrawable, derived_measurement. cbn [contour_data].
      destruct c as [|p c]; [congruence|]. rewrite Hrange. reflexivity.
  - destruct (delete_cases selected_rows t) as [Heq|[Heq|[row [cell_id [_ Heq]]]]];
      rewrite Heq; try (split; [reflexivity|exact Hms]).
    unfold deleted. cbn [contours cell_measurements]. split; [reflexivity|].
    rewrite forallb_forall in *. intros m Hm. apply filter_In in Hm. apply Hms. tauto.
Qed.

End Store.

(** ** The scenarios of the calibration *)

(** An image of 1000 x 800 pixels declared as 100 um x 80 um has 0.1 um
    per pixel in both directions; a region with a bounding box of
    50 x 40 pixels and an area of 1600 pixels then measures
    5 um x 4 um and 16 um2. *)
Example scenario_calibration :
  py_truediv 100%float 1000 = Ok 0x1.999999999999ap-4%float /\
  py_truediv 80%float 800 = Ok 0x1.999999999999ap-4%float /\
  to_length_um 50 0x1.999999999999ap-4%float = 5%float /\
  to_length_um 40 0x1.999999999999ap-4%float = 4%float /\
  to_area_um2 1600%float 0x1.999999999999ap-4%float 0x1.999999999999ap-4%float
    = 16%float.
Proof. vm_compute. repeat split. Qed.

(** Declared as 200 um x 160 um instead, the same region measures
    10 um x 8 um and 64 um2. *)
Example scenario_recalibration :
  py_truediv 200%float 1000 = Ok 0x1.999999999999ap-3%float /\
  py_truediv 160%float 800 = Ok 0x1.999999999999ap-3%float /\
  to_length_um 50 0x1.999999999999ap-3%float = 10%float /\
  to_length_um 40 0x1.999999999999ap-3%float = 8%float /\
  to_area_um2 1600%float 0x1.999999999999ap-3%float 0x1.999999999999ap-3%float
    = 64%float.
Proof. vm_compute. repeat split. Qed.

(** ** Every outcome of a recalculation *)

Section RecalculationOutcomes.

Context {ext : External}.

Lemma recalculate_one_cases (m : Measurement) (s : CellAnalyzerTab) :
  recalculate_one m s = (Ok tt, with_recalculated [m] s) \/
  exists e, recalculate_one m s = (Raise e, s) /\ is_ValueError e = false.
Proof.
  destruct (redrawable m) eqn:Hm.
  - left. apply recalculate_one_ok. exact Hm.
  - right. unfold redrawable in Hm. unfold recalculate_one, np_array_int32.
    destruct (contour_data m) as [|p c] eqn:Hc.
    + exists IndexError. split; [|reflexivity].
      cbn [forallb lift bind]. destruct (boundingRect []) as [[[x0 y0] w] h].
      reflexivity.
    + rewrite Hm. exists OverflowError. split; reflexivity.
Qed.

(** The loop recomputes a prefix of the records: all of them, or those
    before the first one that raises. *)
Lemma recalculate_loop_prefix (ms : list Measurement) (s : CellAnalyzerTab) :
  exists k,
    snd (for_each ms recalculate_one s) = with_recalculated (firstn k ms) s /\
    match fst (for_each ms recalculate_one s) with
    | Ok _ => True
    | Raise e => is_ValueError e = false
    end.
Proof.
  revert s. induction ms as [|m ms IH]; intros s.
  - exists O. split; [|exact I]. unfold with_recalculated. cbn.
    rewrite !app_nil_r. destruct s; reflexivity.
  - cbn [for_each]. unfold bind.
    destruct (recalculate_one_cases m s) as [Hok|[e [Hraise He]]].
    + rewrite Hok. destruct (IH (with_recalculated [m] s)) as [k [Hk Hfst]].
      exists (S k). cbn [firstn]. rewrite <- (with_recalculated_cons m (firstn k ms) s).
      split; [exact Hk|exact Hfst].
    + rewrite Hraise. exists O. split; [|exact He]. unfold with_recalculated. cbn.
      rewrite !app_nil_r. destruct s; reflexivity.
Qed.

Lemma shape_no_rows {A : Type} (img : list (list A)) :
  fst (shape img) = 0 -> snd (shape img) = 0.
Proof. destruct img as [|row img]; [reflexivity|]. cbn. lia. Qed.

(** What a recalculation leaves, whatever its outcome: the id counter,
    the contours and the image are as before; the store is either
    untouched, with the pixel sizes, or it holds the records derived under
    the new pixel sizes from a prefix of the old ones. *)
Lemma recalculate_dimensions_outcome (t : CellAnalyzerTab) :
  let t' := snd (recalculate_dimensions t) in
  next_cell_id t' = next_cell_id t /\
  contours t' = contours t /\
  img_color t' = img_color t /\
  (exists delta, log t' = delta ++ log t /\ assigned_ids delta = []) /\
  (cell_measurements t' = cell_measurements t /\
   measurements_table t' = measurements_table t /\
   pixel_width_um t' = pixel_width_um t /\
   pixel_height_um t' = pixel_height_um t \/
   exists k,
     cell_measurements t' =
       map (fun m => derived_measurement (pixel_width_um t') (pixel_height_um t')
                       (id m) (contour_data m))
           (firstn k (cell_measurements t)) /\
     measurements_table t' = map id (firstn k (cell_measurements t))).
Proof.
  cbv zeta. unfold recalculate_dimensions, try_except, float_of_text.
  cbn [bind get].
  destruct (py_float (width_input t)) as [w|].
  2:{ cbn. repeat split; try reflexivity.
      - exists [msg_invalid_input]. split; reflexivity.
      - left. repeat split. }
  cbn [bind ret modify height_input set_image_width_um].
  destruct (py_float (height_input t)) as [h|].
  2:{ cbn. repeat split; try reflexivity.
      - exists [msg_invalid_input]. split; reflexivity.
      - left. repeat split. }
  cbn [bind ret modify img_gray set_image_width_um set_image_height_um].
  destruct (img_gray t) as [g|].
  2:{ cbn. repeat split; try reflexivity.
      - exists [msg_no_image_loaded]. split; reflexivity.
      - left. repeat split. }
  pose proof (shape_no_rows g) as Hshape.
  destruct (shape g) as [img_height_px img_width_px]. cbn [fst snd] in Hshape.
  unfold py_truediv.
  destruct (img_width_px =? 0) eqn:Hcols.
  { cbn. repeat split; try reflexivity.
    - exists []. split; reflexivity.
    - left. repeat split. }
  destruct (img_height_px =? 0) eqn:Hrows.
  { apply Z.eqb_eq in Hrows. apply Z.eqb_neq in Hcols. exfalso. auto. }
  cbn [bind lift modify get update_status cell_measurements set_log
       set_pixel_height_um set_pixel_width_um set_image_height_um set_image_width_um].
  match goal with
  | |- context [for_each ?ms recalculate_one ?s] =>
      destruct (recalculate_loop_prefix ms s) as [k [Hk Hfst]];
      destruct (for_each ms recalculate_one s) as [[u|e] s'] eqn:Hrun
  end; cbn [fst snd] in Hk, Hfst; subst s'.
  - cbn. repeat split; try reflexivity.
    + exists [msg_dimensions_updated]. split; reflexivity.
    + right. exists k. split; reflexivity.
  - rewrite Hfst. cbn. repeat split; try reflexivity.
    + exists [msg_dimensions_updated]. split; reflexivity.
    + right. exists k. split; reflexivity.
Qed.

End RecalculationOutcomes.

(** ** One operation of the user interface *)

Section UiSteps.

Context {ext : External}.

Lemma quiet_log_refl (t : CellAnalyzerTab) : quiet_log t t.
Proof. exists []. split; reflexivity. Qed.

Lemma store_step_refl (t : CellAnalyzerTab) : store_step t t.
Proof. apply step_kept; try reflexivity. apply quiet_log_refl. Qed.

Lemma handle_click_step (event : MouseEvent) (t : CellAnalyzerTab) :
  contours (snd (handle_click event t)) = contours t /\
  img_color (snd (handle_click event t)) = img_color t /\
  store_step t (snd (handle_click event t)).
Proof.
  destruct (handle_click_cases event t) as [Heq|[c [Hc Heq]]]; rewrite Heq.
  - split; [reflexivity|]. split; [reflexivity|]. apply store_step_refl.
  - cbn [snd]. split; [reflexivity|]. split; [reflexivity|].
    eapply (step_created t (clicked t c) c); try reflexivity. exact Hc.
Qed.

Lemma delete_step (selected_rows : list nat) (t : CellAnalyzerTab) :
  contours (snd (delete_selected_measurement selected_rows t)) = contours t /\
  img_color (snd (delete_selected_measurement selected_rows t)) = img_color t /\
  store_step t (snd (delete_selected_measurement selected_rows t)).
Proof.
  rewrite delete_unfold. destruct selected_rows as [|row rest].
  - cbn. split; [reflexivity|]. split; [reflexivity|].
    apply step_kept; try reflexivity.
    exists [msg_no_selection]. split; reflexivity.
  - destruct (nth_error (measurements_table t) row) as [cell_id|] eqn:Hrow.
    + destruct (find (fun m => id m =? cell_id) (cell_measurements t)).
      * cbn. split; [reflexivity|]. split; [reflexivity|].
        apply (step_deleted t (deleted t row cell_id) row cell_id); try reflexivity.
        -- exact Hrow.
        -- exists [msg_deleted cell_id]. split; reflexivity.
      * split; [reflexivity|]. split; [reflexivity|]. apply store_step_refl.
    + split; [reflexivity|]. split; [reflexivity|]. apply store_step_refl.
Qed.

Lemma recalculate_step (t : CellAnalyzerTab) :
  contours (snd (recalculate_dimensions t)) = contours t /\
  img_color (snd (recalculate_dimensions t)) = img_color t /\
  store_step t (snd (recalculate_dimensions t)).
Proof.
  destruct (recalculate_dimensions_outcome t)
    as [Hnext [Hcontours [Himg [Hlog [[Hms [Htable [Hpw Hph]]]|[k [Hms Htable]]]]]]].
  - split; [exact Hcontours|]. split; [exact Himg|]. apply step_kept; assumption.
  - split; [exact Hcontours|]. split; [exact Himg|].
    apply (step_recomputed _ _ k); assumption.
Qed.

Lemma handle_line_release_step (event : MouseEvent) (t : CellAnalyzerTab) :
  contours (snd (handle_line_release event t)) = contours t /\
  img_color (snd (handle_line_release event t)) = img_color t /\
  store_step t (snd (handle_line_release event t)).
Proof.
  rewrite handle_line_release_unfold.
  destruct (line_start_point t) as [start|].
  - destruct (QPointF_bool start).
    + destruct (line_um_length start (scene_pos event) (pixel_width_um t)
                  (pixel_height_um t)) as [um_length|e].
      * cbn. split; [reflexivity|]. split; [reflexivity|].
        apply step_kept; try reflexivity. eexists [_]. split; reflexivity.
      * split; [reflexivity|]. split; [reflexivity|]. apply store_step_refl.
    + split; [reflexivity|]. split; [reflexivity|]. apply store_step_refl.
  - split; [reflexivity|]. split; [reflexivity|]. apply store_step_refl.
Qed.

Lemma eventFilter_step (source_is_viewport analyze_checked draw_checked : bool)
    (event : ViewportEvent) (t : CellAnalyzerTab) :
  let t' := snd (eventFilter source_is_viewport analyze_checked draw_checked event t) in
  contours t' = contours t /\ img_color t' = img_color t /\ store_step t t'.
Proof.
  cbv zeta.
  pose proof (store_step_refl t) as Hrefl.
  unfold eventFilter. destruct source_is_viewport; [|repeat split; assumption].
  cbn [bind get]. destruct (img_color t) as [color|] eqn:Himg;
    [|repeat split; assumption].
  destruct analyze_checked.
  - destruct (event_type event); try (repeat split; assumption).
    destruct (button (mouse event)); try (repeat split; assumption).
    rewrite <- Himg. apply handle_click_step.
  - destruct draw_checked; [|repeat split; assumption].
    destruct (event_type event); try (repeat split; assumption).
    + destruct (button (mouse event)); try (repeat split; assumption).
      cbn. split; [reflexivity|]. split; [exact Himg|].
      apply step_kept; try reflexivity. exists []. split; reflexivity.
    + destruct (button (mouse event)); destruct (left_held event);
        repeat split; assumption.
    + destruct (button (mouse event)); try (repeat split; assumption).
      rewrite <- Himg. apply handle_line_release_step.
Qed.

Lemma apply_ui_step (op : UiOp) (t : CellAnalyzerTab) :
  let t' := snd (apply_ui op t) in
  contours t' = contours t /\ img_color t' = img_color t /\ store_step t t'.
Proof.
  destruct op; cbn [apply_ui].
  - apply eventFilter_step.
  - apply delete_step.
  - apply recalculate_step.
  - cbn. split; [reflexivity|]. split; [reflexivity|].
    apply step_kept; try reflexivity. exists []. split; reflexivity.
  - cbn. split; [reflexivity|]. split; [reflexivity|].
    apply step_kept; try reflexivity. exists []. split; reflexivity.
Qed.

End UiSteps.

(** ** Lists of increasing ids *)

Lemma sorted_app_last (l : list Z) (x : Z) :
  StronglySorted Z.lt l -> Forall (fun i => i < x) l -> StronglySorted Z.lt (l ++ [x]).
Proof.
  intros Hsorted Hbelow. induction Hsorted as [|i l Hl IH Hi]; cbn.
  - constructor; constructor.
  - inversion Hbelow as [|? ? Hix Hrest]; subst. constructor.
    + apply IH. exact Hrest.
    + apply Forall_app. split; [exact Hi|]. constructor; [exact Hix|constructor].
Qed.

Lemma in_firstn {A : Type} (k : nat) (l : list A) (x : A) :
  In x (firstn k l) -> In x l.
Proof.
  intros Hx. rewrite <- (firstn_skipn k l). apply in_or_app. left. exact Hx.
Qed.

Lemma sorted_firstn (k : nat) (l : list Z) :
  StronglySorted Z.lt l -> StronglySorted Z.lt (firstn k l).
Proof.
  intros Hsorted. revert k. induction Hsorted as [|i l Hl IH Hi]; intros k.
  - rewrite firstn_nil. constructor.
  - destruct k as [|k]; cbn; constructor.
    + apply IH.
    + rewrite Forall_forall in *. intros j Hj. apply Hi.
      eapply in_firstn. exact Hj.
Qed.

Lemma sorted_filter (keep : Z -> bool) (l : list Z) :
  StronglySorted Z.lt l -> StronglySorted Z.lt (filter keep l).
Proof.
  intros Hsorted. induction Hsorted as [|i l Hl IH Hi]; cbn.
  - constructor.
  - destruct (keep i); [|exact IH]. constructor; [exact IH|].
    rewrite Forall_forall in *. intros j Hj. apply Hi. apply filter_In in Hj. tauto.
Qed.

Lemma filter_all_kept (x : Z) (l : list Z) :
  Forall (fun i => x < i) l -> filter (fun i => negb (i =? x)) l = l.
Proof.
  intros Hall. induction Hall as [|i l Hi _ IH]; cbn; [reflexivity|].
  destruct (i =? x) eqn:Heq; [apply Z.eqb_eq in Heq; lia|].
  cbn. rewrite IH. reflexivity.
Qed.

(** In a list of increasing ids, dropping the ids equal to the one at
    [row] is dropping the row. *)
Lemma filter_is_remove_row (row : nat) (x : Z) (l : list Z) :
  StronglySorted Z.lt l -> nth_error l row = Some x ->
  filter (fun i => negb (i =? x)) l = remove_row row l.
Proof.
  intros Hsorted. revert row. induction Hsorted as [|i l Hl IH Hi]; intros row Hrow.
  - destruct row; discriminate.
  - destruct row as [|row]; cbn in Hrow.
    + injection Hrow as ->. cbn. rewrite Z.eqb_refl. cbn.
      unfold remove_row. cbn. apply filter_all_kept. exact Hi.
    + cbn. destruct (i =? x) eqn:Heq.
      * apply Z.eqb_eq in Heq. subst i. apply nth_error_In in Hrow.
        rewrite Forall_forall in Hi. specialize (Hi x Hrow). lia.
      * cbn. rewrite (IH row Hrow). reflexivity.
Qed.

Lemma map_id_filter (x : Z) (ms : list Measurement) :
  map id (filter (fun m => negb (id m =? x)) ms) =
  filter (fun i => negb (i =? x)) (map id ms).
Proof.
  induction ms as [|m ms IH]; cbn; [reflexivity|].
  destruct (id m =? x); cbn; rewrite IH; reflexivity.
Qed.


(** ** Invariants of the store *)

Section StoreInvariants.

Context {ext : External}.

Lemma step_keeps_table (t t' : CellAnalyzerTab) :
  store_step t t' -> table_matches_store t -> table_matches_store t'.
Proof.
  intros Hstep [Htable [Hsorted Hbelow]]. unfold table_matches_store.
  destruct Hstep as [Hms Ht Hnext _ _ _
                    |c area _ Hms Ht Hnext _ _ _
                    |row cell_id Hrow Hms Ht Hnext _ _ _
                    |k Hms Ht Hnext _].
  - rewrite Hms, Ht, Hnext. auto.
  - rewrite Hms, Ht, Hnext, map_app, Htable. cbn [map derived_measurement id].
    split; [reflexivity|]. split.
    + apply sorted_app_last; [exact Hsorted|].
      rewrite Forall_map. exact Hbelow.
    + apply Forall_app. split.
      * eapply Forall_impl; [|exact Hbelow]. cbn. intros m Hm. lia.
      * constructor; [cbn; lia|constructor].
  - rewrite Hms, Ht, Hnext, map_id_filter. rewrite Htable in Hrow |- *.
    split; [symmetry; apply filter_is_remove_row; assumption|]. split.
    + apply sorted_filter. exact Hsorted.
    + rewrite Forall_forall in *. intros m Hm. apply filter_In in Hm.
      apply Hbelow. tauto.
  - rewrite Hms, Ht, Hnext, map_map. cbn [derived_measurement id].
    split; [reflexivity|]. split.
    + rewrite <- firstn_map. apply sorted_firstn. exact Hsorted.
    + rewrite Forall_map. cbn [derived_measurement id].
      rewrite Forall_forall in *. intros m Hm. apply Hbelow.
      eapply in_firstn. exact Hm.
Qed.

Lemma step_keeps_derived (t t' : CellAnalyzerTab) :
  store_step t t' -> derived_from_polygons t -> derived_from_polygons t'.
Proof.
  intros Hstep Hderived. unfold derived_from_polygons in *.
  destruct Hstep as [Hms _ _ Hpw Hph _
                    |c area _ Hms _ _ Hpw Hph _
                    |row cell_id _ Hms _ _ Hpw Hph _
                    |k Hms _ _ _].
  - rewrite Hms, Hpw, Hph. exact Hderived.
  - rewrite Hms, Hpw, Hph. apply Forall_app. split; [exact Hderived|].
    constructor; [reflexivity|constructor].
  - rewrite Hms, Hpw, Hph. rewrite Forall_forall in *. intros m Hm.
    apply filter_In in Hm. apply Hderived. tauto.
  - rewrite Hms. rewrite Forall_map. apply Forall_forall. intros m _. reflexivity.
Qed.


End StoreInvariants.

Section UiSessions.

Context {ext : External}.


(** X1: whatever the user does in a tab (mouse events in either mode,
    deletions, recalculations that succeed or fail, typing into the
    dimension fields), the table keeps showing exactly the ids of the
    stored records, in their order, and these ids stay increasing and
    below [next_cell_id]. *)
Theorem run_ui_keeps_table (ops : list UiOp) (t0 : CellAnalyzerTab) :
  table_matches_store t0 -> table_matches_store (run_ui ops t0).
Proof.
  revert t0. induction ops as [|op ops IH]; intros t0 Hinv; [exact Hinv|].
  cbn [run_ui]. apply IH. eapply step_keeps_table; [|exact Hinv].
  apply apply_ui_step.
Qed.

(** X2: if every record is the one derived from its polygon under the
    current pixel sizes, this stays so whatever the user does: a click
    derives the new record under the current sizes, and a recalculation
    that changes the sizes derives every record it keeps again. *)
Theorem run_ui_keeps_derived (ops : list UiOp) (t0 : CellAnalyzerTab) :
  derived_from_polygons t0 -> derived_from_polygons (run_ui ops t0).
Proof.
  revert t0. induction ops as [|op ops IH]; intros t0 Hinv; [exact Hinv|].
  cbn [run_ui]. apply IH. eapply step_keeps_derived; [|exact Hinv].
  apply apply_ui_step.
Qed.

(** X3: a recalculation, whether it succeeds, reports invalid input or
    raises, never changes [next_cell_id], and the ids and polygons of
    the records it leaves are those of the first records of the store
    before, in the same order. *)
Theorem recalculate_dimensions_keeps_ids (t : CellAnalyzerTab) :
  next_cell_id (snd (recalculate_dimensions t)) = next_cell_id t /\
  exists k,
    map (fun m => (id m, contour_data m))
        (cell_measurements (snd (recalculate_dimensions t))) =
    firstn k (map (fun m => (id m, contour_data m)) (cell_measurements t)).
Proof.
  destruct (recalculate_dimensions_outcome t)
    as [Hnext [_ [_ [_ [[Hms _]|[k [Hms _]]]]]]].
  - split; [exact Hnext|].
    exists (List.length (map (fun m => (id m, contour_data m)) (cell_measurements t))).
    rewrite Hms, firstn_all. reflexivity.
  - split; [exact Hnext|]. exists k.
    rewrite Hms, map_map, <- firstn_map. reflexivity.
Qed.




End UiSessions.

(** ** Mouse events *)

Section MouseEvents.

Context {ext : External}.

Lemma draw_mode_keeps_store (source_is_viewport draw_checked : bool)
    (events : list ViewportEvent) (t : CellAnalyzerTab) :
  let t' := run_ui (map (Filtered source_is_viewport false draw_checked) events) t in
  cell_measurements t' = cell_measurements t /\
  measurements_table t' = measurements_table t /\
  next_cell_id t' = next_cell_id t.
Proof.
  cbv zeta. revert t. induction events as [|event events IH]; intros t.
  - repeat split.
  - cbn [map run_ui apply_ui].
    destruct (IH (snd (eventFilter source_is_viewport false draw_checked event t)))
      as [Hms [Htable Hnext]].
    rewrite Hms, Htable, Hnext. clear IH Hms Htable Hnext.
    unfold eventFilter. destruct source_is_viewport; [|repeat split].
    cbn [bind get]. destruct (img_color t); [|repeat split].
    destruct draw_checked; [|repeat split].
    destruct (event_type event); try solve [repeat split].
    + destruct (button (mouse event)); repeat split.
    + destruct (button (mouse event)); destruct (left_held event); repeat split.
    + destruct (button (mouse event)); try solve [repeat split].
      destruct (handle_line_release_keeps_store t (mouse event)) as [Hms [Hnext Htable]].
      repeat split; assumption.
Qed.

(** X6: the viewport ignores every event while the tab has no image or
    when the event comes from another widget; in analysis mode only a
    press of the left button can change the tab; and in line mode no
    sequence of events changes the measurement list, the table or
    [next_cell_id]. *)
Theorem eventFilter_dispatch (t : CellAnalyzerTab) :
  (forall source_is_viewport analyze_checked draw_checked event,
     img_color t = None \/ source_is_viewport = false ->
     eventFilter source_is_viewport analyze_checked draw_checked event t = (Ok tt, t)) /\
  (forall source_is_viewport draw_checked event,
     event_type event <> MouseButtonPress \/ button (mouse event) <> LeftButton ->
     eventFilter source_is_viewport true draw_checked event t = (Ok tt, t)) /\
  (forall source_is_viewport draw_checked events,
     let t' := run_ui (map (Filtered source_is_viewport false draw_checked) events) t in
     cell_measurements t' = cell_measurements t /\
     measurements_table t' = measurements_table t /\
     next_cell_id t' = next_cell_id t).
Proof.
  split; [|split].
  - intros source_is_viewport analyze_checked draw_checked event [Himg|Hsource].
    + unfold eventFilter. destruct source_is_viewport; [|reflexivity].
      cbn [bind get]. rewrite Himg. reflexivity.
    + rewrite Hsource. reflexivity.
  - intros source_is_viewport draw_checked event Hother.
    unfold eventFilter. destruct source_is_viewport; [|reflexivity].
    cbn [bind get]. destruct (img_color t); [|reflexivity].
    destruct (event_type event); try reflexivity.
    destruct (button (mouse event)); try reflexivity.
    destruct Hother as [Habs|Habs]; congruence.
  - intros source_is_viewport draw_checked events.
    apply draw_mode_keeps_store.
Qed.

(** X7: a press at a point that counts as true followed by a release
    either reports the length between the two points under the pixel sizes
    of the tab and ends the line, so that a release that follows without a
    new press changes nothing; or, when a square of a coordinate
    difference overflows, raises [OverflowError] and leaves the tab as the
    press has left it, with the start point kept and no length shown. *)
Theorem line_press_then_release (t : CellAnalyzerTab) (press release again : MouseEvent) :
  QPointF_bool (scene_pos press) = true ->
  exists t1,
    handle_line_press press t = (Ok tt, t1) /\
    line_start_point t1 = Some (scene_pos press) /\
    line_length_label t1 = line_length_label t /\
    match line_um_length (scene_pos press) (scene_pos release)
            (pixel_width_um t) (pixel_height_um t) with
    | Ok um_length =>
        exists t2,
          handle_line_release release t1 = (Ok tt, t2) /\
          line_length_label t2 = Some um_length /\
          log t2 = msg_line_drawn um_length :: log t /\
          line_start_point t2 = None /\
          handle_line_release again t2 = (Ok tt, t2)
    | Raise e =>
        e = OverflowError /\
        handle_line_release release t1 = (Raise OverflowError, t1)
    end.
Proof.
  intros Htrue. eexists. split; [reflexivity|].
  split; [reflexivity|]. split; [reflexivity|].
  destruct (line_um_length (scene_pos press) (scene_pos release)
              (pixel_width_um t) (pixel_height_um t)) as [um_length|e] eqn:Hlength.
  - eexists. split.
    + apply (handle_line_release_measures _ release (scene_pos press) um_length);
        [reflexivity|exact Htrue|exact Hlength].
    + cbn. repeat split.
  - pose proof (line_um_length_raises _ _ _ _ _ Hlength) as He. subst e.
    split; [reflexivity|].
    rewrite handle_line_release_unfold.
    cbn [handle_line_press snd line_start_point set_line_start_point
         pixel_width_um pixel_height_um].
    rewrite Htrue, Hlength. reflexivity.
Qed.

End MouseEvents.

(** ** More on restoring snapshots *)

Section MoreRestoring.

Context {ext : External}.

Lemma load_state_undecodable (t : CellAnalyzerTab) (state : TabSnapshot) (s : string)
    (data : bytes) :
  s_image_b64 state = Some s -> s <> "" ->
  b64decode s = Some data ->
  imdecode_color data = Ok None ->
  forallb redrawable (get_default (s_cell_measurements state) []) = true ->
  load_state state t = (Ok tt, restored_without_image t state).
Proof.
  intros Hb64 Hs Hdata Himg Hms.
  unfold load_state, try_except. rewrite Hb64.
  destruct s as [|ch s]; [congruence|].
  cbn [bind ret]. rewrite Hdata. cbn [bind ret lift]. rewrite Himg.
  cbn [bind ret modify get].
  cbv zeta. cbn [analyze_image bind update_status modify get].
  unfold bind at 1. rewrite load_loop by exact Hms.
  cbn [bind get update_status modify].
  unfold restored_without_image, with_loaded. cbn. reflexivity.
Qed.

(** X8: when the image text of a snapshot decodes to bytes that are not
    an image, [load_state] reports no load error: it restores the
    dimensions, the records and the id counter next to the image the tab
    had before.  Restored into a tab without image, the tab has
    records but no image, and [save_state] returns no snapshot for it. *)
Theorem load_state_without_decodable_image (t : CellAnalyzerTab) (state : TabSnapshot)
    (s : string) (data : bytes) :
  s_image_b64 state = Some s -> s <> "" ->
  b64decode s = Some data ->
  imdecode_color data = Ok None ->
  forallb redrawable (get_default (s_cell_measurements state) []) = true ->
  img_color t = None ->
  exists t',
    load_state state t = (Ok tt, t') /\
    cell_measurements t' = get_default (s_cell_measurements state) [] /\
    next_cell_id t' = get_default (s_next_cell_id state) 1 /\
    log t' =
      msg_loaded (List.length (get_default (s_cell_measurements state) []))
      :: msg_could_not_load :: log t /\
    img_color t' = None /\
    forall parent_title, save_state parent_title t' = None.
Proof.
  intros Hb64 Hs Hdata Himg Hms Hnone.
  exists (restored_without_image t state).
  split; [eapply load_state_undecodable; eassumption|].
  unfold restored_without_image. cbn. repeat split; try assumption.
  intros parent_title. apply save_state_no_image. exact Hnone.
Qed.

(** X9: [load_state] writes the loaded width into the width field but
    the height that the tab had before the load into the height field.  A
    recalculation right after the load therefore keeps the loaded width
    and replaces the loaded height by the earlier one. *)
Theorem recalculate_after_load_state (t : CellAnalyzerTab) (state : TabSnapshot)
    (s : string) (data : bytes) (img : image) (w h : float) :
  s_image_b64 state = Some s -> s <> "" ->
  b64decode s = Some data ->
  imdecode_color data = Ok (Some img) ->
  fst (shape img) <> 0 -> snd (shape img) <> 0 ->
  forallb redrawable (get_default (s_cell_measurements state) []) = true ->
  py_float (py_str (get_default (s_image_width_um state) 100%float)) = Some w ->
  py_float (py_str (image_height_um t)) = Some h ->
  exists t1 t2,
    load_state state t = (Ok tt, t1) /\
    image_height_um t1 = get_default (s_image_height_um state) 100%float /\
    width_input t1 = py_str (get_default (s_image_width_um state) 100%float) /\
    height_input t1 = py_str (image_height_um t) /\
    recalculate_dimensions t1 = (Ok tt, t2) /\
    image_width_um t2 = w /\
    image_height_um t2 = h /\
    pixel_height_um t2 = PrimFloat.div h (float_of_int (fst (shape img))).
Proof.
  intros Hb64 Hs Hdata Himg Hrows Hcols Hms Hw Hh.
  exists (restored t state img).
  exists (recalculated (restored t state img) w h (fst (shape img)) (snd (shape img))).
  assert (Hload : load_state state t = (Ok tt, restored t state img))
    by (eapply load_state_ok; eassumption).
  assert (Hshape : shape (map (map gray_of_bgr) img) = shape img) by apply shape_map_map.
  split; [exact Hload|]. split; [reflexivity|]. split; [reflexivity|].
  split; [reflexivity|]. split; [|repeat split].
  rewrite <- Hshape.
  apply (recalculate_dimensions_ok (restored t state img) w h (map (map gray_of_bgr) img)).
  - exact Hw.
  - exact Hh.
  - reflexivity.
  - rewrite Hshape. exact Hrows.
  - rewrite Hshape. exact Hcols.
  - exact Hms.
Qed.

Lemma load_loop_stops (good rest : list Measurement) (bad : Measurement)
    (s : CellAnalyzerTab) :
  forallb redrawable good = true -> contour_data bad = [] ->
  for_each (good ++ bad :: rest) load_one s = (Raise IndexError, with_loaded good s).
Proof.
  intros Hgood Hbad. revert s. induction good as [|m good IH]; intros s.
  - cbn [app for_each]. unfold bind, load_one, lift, np_array_int32. rewrite Hbad.
    unfold with_loaded. cbn. rewrite !app_nil_r. destruct s; reflexivity.
  - cbn in Hgood. apply andb_true_iff in Hgood. destruct Hgood as [Hm Hgood].
    cbn [app for_each]. unfold bind at 1. rewrite (load_one_ok m s Hm).
    rewrite (IH Hgood). rewrite with_loaded_cons. reflexivity.
Qed.

(** X10: a record without polygon points in a snapshot makes [load_state]
    raise [IndexError], which its [except] clause does not name: the tab is
    left with the loaded image and with the records that precede the bad
    one, and a project load whose first snapshot is this one ends with the
    exception, after the tabs that were open have been removed. *)
Theorem load_state_empty_polygon (t : CellAnalyzerTab) (state : TabSnapshot)
    (s : string) (data : bytes) (img : image) (good rest : list Measurement)
    (bad : Measurement) :
  s_image_b64 state = Some s -> s <> "" ->
  b64decode s = Some data ->
  imdecode_color data = Ok (Some img) ->
  fst (shape img) <> 0 -> snd (shape img) <> 0 ->
  s_cell_measurements state = Some (good ++ bad :: rest) ->
  forallb redrawable good = true ->
  contour_data bad = [] ->
  (exists t',
     load_state state t = (Raise IndexError, t') /\
     img_color t' = Some (cvtColor_swap img) /\
     cell_measurements t' = good) /\
  (forall (doc : ProjectData) (others : list TabSnapshot) (a : CellAnalyzerApp),
     tabs_key doc = Some (state :: others) ->
     _load_project_from_path (Ok doc) a = (Raise IndexError, set_tabs [] a)).
Proof.
  intros Hb64 Hs Hdata Himg Hrows Hcols Hms Hgood Hbad.
  assert (Hload : forall t0, exists t',
             load_state state t0 = (Raise IndexError, t') /\
             img_color t' = Some (cvtColor_swap img) /\
             cell_measurements t' = good).
  { intros t0. unfold load_state, try_except. rewrite Hb64.
    destruct s as [|ch s]; [congruence|].
    cbn [bind ret]. rewrite Hdata. cbn [bind ret lift]. rewrite Himg.
  cbn [bind ret modify get].
    cbv zeta. unfold bind at 1. rewrite analyze_image_ok by assumption.
    cbn [bind modify get]. unfold bind at 1. rewrite Hms. cbn [get_default].
    rewrite (load_loop_stops good rest bad _ Hgood Hbad).
    cbn [is_load_error]. eexists. split; [reflexivity|]. split; reflexivity. }
  split; [apply Hload|].
  intros doc others a Hdoc. rewrite (load_project_with_tabs doc _ a Hdoc).
  cbn [for_each]. unfold bind. rewrite load_tab_unfold.
  destruct (Hload new_tab) as [t' [Hraise _]]. rewrite Hraise. reflexivity.
Qed.

End MoreRestoring.

(** ** More on project documents *)

Section MoreProjects.

Context {ext : External}.

Lemma same_content_save_state (original restored_page : string * CellAnalyzerTab) :
  same_content original restored_page ->
  save_state None (snd restored_page) = save_state None (snd original) /\
  fst restored_page = fst original.
Proof.
  intros [Htitle [Himg [Hw [Hh [Hms Hnext]]]]]. split; [|exact Htitle].
  unfold save_state. rewrite Himg, Hw, Hh, Hms, Hnext. reflexivity.
Qed.

Lemma same_content_project_states (pages pages' : list (string * CellAnalyzerTab)) :
  Forall2 same_content pages pages' -> project_states pages' = project_states pages.
Proof.
  intros Hall. induction Hall as [|[title t] [title' t'] pages pages' Hsame _ IH].
  - reflexivity.
  - apply same_content_save_state in Hsame. cbn [fst snd] in Hsame.
    destruct Hsame as [Hsave Htitle]. rewrite !project_states_cons.
    rewrite Hsave, Htitle, IH. reflexivity.
Qed.

(** X11: saving a project right after it has been loaded writes the
    document that was loaded: for tabs whose images the codecs give back,
    save, load and save again yields the first document. *)
Theorem save_after_load_writes_same_document (a a0 : CellAnalyzerApp) :
  tabs a <> [] ->
  Forall (fun page => saveable (snd page)) (tabs a) ->
  exists doc a1 a2 a3,
    save_project a = (Ok (Some doc), a1) /\
    _load_project_from_path (Ok doc) a0 = (Ok true, a2) /\
    save_project a2 = (Ok (Some doc), a3).
Proof.
  intros Hnonempty Hpages.
  destruct (load_saved_pages (tabs a) (set_tabs [] a0) Hpages) as [pages' [Hrun Hall]].
  exists {| version := Some "1.0"; tabs_key := Some (project_states (tabs a)) |}.
  eexists. eexists. eexists. split; [|split].
  - unfold save_project. cbn [bind get].
    destruct (tabs a) as [|page pages]; [congruence|]. reflexivity.
  - rewrite (load_project_with_tabs
               {| version := Some "1.0"; tabs_key := Some (project_states (tabs a)) |}
               (project_states (tabs a)) a0 eq_refl).
    rewrite Hrun. reflexivity.
  - unfold save_project. cbn [bind get tabs set_tabs app].
    rewrite (same_content_project_states _ _ Hall).
    destruct Hall as [|page page' pages pages'' _ _]; [congruence|]. reflexivity.
Qed.

Lemma loaded_pages_all_return (states : list TabSnapshot) :
  Forall (fun state => fst (load_state state new_tab) = Ok tt) states ->
  loaded_pages states =
    map (fun state => (loaded_title state, snd (load_state state new_tab))) states.
Proof.
  intros Hall. induction Hall as [|state states Hok _ IH]; [reflexivity|].
  cbn [loaded_pages map]. destruct (load_state state new_tab) as [[u|e] loaded].
  - rewrite IH. reflexivity.
  - discriminate.
Qed.

Lemma load_tabs_all_return (states : list TabSnapshot) (a : CellAnalyzerApp) :
  Forall (fun state => fst (load_state state new_tab) = Ok tt) states ->
  fst (for_each states load_tab a) = Ok tt.
Proof.
  intros Hall. revert a. induction Hall as [|state states Hok _ IH]; intros a.
  - reflexivity.
  - cbn [for_each]. unfold bind. rewrite load_tab_unfold.
    destruct (load_state state new_tab) as [[u|e] loaded]; [|discriminate].
    apply IH.
Qed.

(** X12: when [load_state] returns for every snapshot of a document, be
    it after reporting a load error, the project load returns [True] and
    the window holds one tab per snapshot, in the order of the document,
    under the snapshot's title or "Loaded Tab"; a snapshot without image
    data gives a new tab that shows the error. *)
Theorem load_adds_one_tab_per_snapshot (doc : ProjectData) (states : list TabSnapshot)
    (a : CellAnalyzerApp) :
  tabs_key doc = Some states ->
  Forall (fun state => fst (load_state state new_tab) = Ok tt) states ->
  exists a',
    _load_project_from_path (Ok doc) a = (Ok true, a') /\
    tabs a' =
      map (fun state => (get_default (s_title state) "Loaded Tab",
                         snd (load_state state new_tab))) states /\
    Forall2 (fun state page =>
               no_image_data state ->
               exists e, snd page = load_failed new_tab e)
            states (tabs a').
Proof.
  intros Hdoc Hall.
  pose proof (load_project_tabs doc states a Hdoc) as Htabs.
  rewrite (load_project_with_tabs doc states a Hdoc) in *.
  pose proof (load_tabs_all_return states (set_tabs [] a) Hall) as Hfst.
  destruct (for_each states load_tab (set_tabs [] a)) as [[u|e] a']; [|discriminate].
  cbn [snd tabs] in Htabs. eexists. split; [reflexivity|]. cbn [tabs].
  rewrite Htabs, (loaded_pages_all_return states Hall). split; [reflexivity|].
  clear. induction states as [|state states IH]; cbn [map]; constructor; [|exact IH].
  cbn [snd]. intros Hdata.
  destruct (load_state_without_image_data new_tab state Hdata) as [e Hload].
  exists e. rewrite Hload. reflexivity.
Qed.

End MoreProjects.

(** ** Closing tabs *)

Section ClosingTabs.

Context {ext : External}.

(** X13: closing a tab never leaves the window without a tab: whatever
    the index and the answer to the question, a window that has a tab has
    one afterwards; and closing the only tab leaves exactly one new, empty
    tab called "New Tab 1". *)
Theorem close_tab_keeps_a_tab (w : Window) (index : nat) (answer_yes : bool) :
  tabs (application w) <> [] ->
  tabs (application (snd (close_tab index answer_yes w))) <> [] /\
  (forall page, tabs (application w) = [page] -> index = O -> answer_yes = true ->
     tabs (application (snd (close_tab index answer_yes w))) = [("New Tab 1", new_tab)]).
Proof.
  intros Hnonempty. unfold close_tab. cbn [bind get].
  destruct (tabs (application w)) as [|first rest] eqn:Htabs; [congruence|].
  destruct answer_yes.
  - destruct (nth_error (first :: rest) index) as [page|] eqn:Hindex.
    + cbn [bind modify shell_status get application tabs set_tabs snd shell_log].
      rewrite Htabs.
      destruct (remove_row index (first :: rest)) as [|p ps] eqn:Hleft.
      * split.
        -- unfold add_new_tab. cbn. discriminate.
        -- intros page' Hsingle Hzero _. unfold add_new_tab. cbn. reflexivity.
      * split.
        -- cbn. discriminate.
        -- intros page' Hsingle Hzero _. injection Hsingle as -> ->. subst index.
           cbn in Hleft. discriminate.
    + split.
      * cbn. rewrite Htabs. discriminate.
      * intros page' Hsingle Hzero _. injection Hsingle as -> ->. subst index.
        discriminate.
  - split.
    + cbn. rewrite Htabs. discriminate.
    + intros page' _ _ Hyes. discriminate.
Qed.

End ClosingTabs.

(** ** The properties above on concrete inputs *)

Lemma run_ui_keeps_table_witness :
  table_matches_store Sessions.after_ui_session.
Proof.
  apply (run_ui_keeps_table (ext := Reference.reference)
           Sessions.ui_session Examples.measured).
  split; [reflexivity|]. split.
  - vm_compute. constructor; constructor.
  - vm_compute. constructor; [reflexivity|constructor].
Defined.

Lemma run_ui_keeps_derived_witness :
  derived_from_polygons (ext := Reference.reference) Sessions.after_ui_session.
Proof.
  apply (run_ui_keeps_derived (ext := Reference.reference)
           Sessions.ui_session Examples.measured).
  unfold derived_from_polygons. vm_compute. constructor; [reflexivity|constructor].
Defined.


Lemma eventFilter_dispatch_witness :
  eventFilter (ext := Reference.reference) true true false
    (Sessions.press_at 20.5%float 30.25%float) Examples.fresh_tab
    = (Ok tt, Examples.fresh_tab) /\
  eventFilter (ext := Reference.reference) true true false
    (Sessions.release_at 20.5%float 30.25%float) Examples.measured
    = (Ok tt, Examples.measured).
Proof.
  pose proof (eventFilter_dispatch (ext := Reference.reference) Examples.fresh_tab)
    as [Hnone _].
  pose proof (eventFilter_dispatch (ext := Reference.reference) Examples.measured)
    as [_ [Hother _]].
  split.
  - apply Hnone. left. reflexivity.
  - apply Hother. left. discriminate.
Defined.

Lemma line_press_then_release_witness :
  exists t1,
    handle_line_press Sessions.line_press Examples.three_cells = (Ok tt, t1) /\
    line_start_point t1 = Some (scene_pos Sessions.line_press) /\
    line_length_label t1 = None /\
    exists t2,
      handle_line_release (ext := Reference.reference)
        (mouse (Sessions.release_at 6%float 8%float)) t1 = (Ok tt, t2) /\
      line_length_label t2 = Some 2.5%float /\
      log t2 = msg_line_drawn 2.5%float :: log Examples.three_cells /\
      line_start_point t2 = None /\
      handle_line_release (ext := Reference.reference)
        (mouse (Sessions.release_at 9%float 9%float)) t2 = (Ok tt, t2).
Proof.
  apply (line_press_then_release (ext := Reference.reference) Examples.three_cells
           Sessions.line_press (mouse (Sessions.release_at 6%float 8%float))
           (mouse (Sessions.release_at 9%float 9%float))).
  vm_compute. reflexivity.
Defined.

Lemma load_state_without_decodable_image_witness :
  exists t',
    load_state (ext := Reference.reference) Examples.undecodable_snapshot
      Examples.fresh_tab = (Ok tt, t') /\
    cell_measurements t' = cell_measurements Examples.measured /\
    next_cell_id t' = 2 /\
    log t' = [msg_loaded 1; msg_could_not_load; msg_please_import] /\
    img_color t' = None /\
    forall parent_title,
      save_state (ext := Reference.reference) parent_title t' = None.
Proof.
  refine (load_state_without_decodable_image (ext := Reference.reference)
            Examples.fresh_tab Examples.undecodable_snapshot "AAAA" [x00; x00; x00]
            _ _ _ _ _ _).
  - reflexivity.
  - discriminate.
  - vm_compute. reflexivity.
  - vm_compute. reflexivity.
  - vm_compute. reflexivity.
  - reflexivity.
Defined.

Lemma recalculate_after_load_state_witness :
  exists t1 t2,
    load_state (ext := Reference.reference) Sessions.measured_snapshot Examples.fresh_tab
      = (Ok tt, t1) /\
    image_height_um t1 = 1%float /\
    width_input t1 = "1.0" /\
    height_input t1 = "100.0" /\
    recalculate_dimensions (ext := Reference.reference) t1 = (Ok tt, t2) /\
    image_width_um t2 = 1%float /\
    image_height_um t2 = 100%float /\
    pixel_height_um t2 = 50%float.
Proof.
  refine (recalculate_after_load_state (ext := Reference.reference)
            Examples.fresh_tab Sessions.measured_snapshot Examples.small_image_b64
            (Reference.raw_encode (cvtColor_swap Examples.small_image))
            (cvtColor_swap Examples.small_image) 1%float 100%float
            _ _ _ _ _ _ _ _ _).
  - reflexivity.
  - vm_compute. discriminate.
  - vm_compute. reflexivity.
  - vm_compute. reflexivity.
  - vm_compute. discriminate.
  - vm_compute. discriminate.
  - vm_compute. reflexivity.
  - vm_compute. reflexivity.
  - vm_compute. reflexivity.
Defined.

Lemma load_state_empty_polygon_witness :
  (exists t',
     load_state (ext := Reference.reference) Sessions.snapshot_with_empty_polygon
       Examples.fresh_tab = (Raise IndexError, t') /\
     img_color t' = Some Examples.small_image /\
     cell_measurements t' = cell_measurements Examples.measured) /\
  (forall (doc : ProjectData) (others : list TabSnapshot) (a : CellAnalyzerApp),
     tabs_key doc = Some (Sessions.snapshot_with_empty_polygon :: others) ->
     _load_project_from_path (ext := Reference.reference) (Ok doc) a
       = (Raise IndexError, set_tabs [] a)).
Proof.
  refine (load_state_empty_polygon (ext := Reference.reference)
            Examples.fresh_tab Sessions.snapshot_with_empty_polygon
            Examples.small_image_b64
            (Reference.raw_encode (cvtColor_swap Examples.small_image))
            (cvtColor_swap Examples.small_image)
            (cell_measurements Examples.measured) [] Sessions.no_points
            _ _ _ _ _ _ _ _ _).
  - reflexivity.
  - vm_compute. discriminate.
  - vm_compute. reflexivity.
  - vm_compute. reflexivity.
  - vm_compute. discriminate.
  - vm_compute. discriminate.
  - reflexivity.
  - vm_compute. reflexivity.
  - reflexivity.
Defined.

Lemma save_after_load_writes_same_document_witness :
  exists doc a1 a2 a3,
    save_project (ext := Reference.reference) Examples.two_images = (Ok (Some doc), a1) /\
    _load_project_from_path (ext := Reference.reference) (Ok doc) Examples.open_app
      = (Ok true, a2) /\
    save_project (ext := Reference.reference) a2 = (Ok (Some doc), a3).
Proof.
  apply (save_after_load_writes_same_document (ext := Reference.reference)
           Examples.two_images Examples.open_app).
  - discriminate.
  - assert (Hcodec : round_trips (ext := Reference.reference)
                       (cvtColor_swap Examples.small_image)).
    { split; [vm_compute; discriminate|].
      eexists. split; vm_compute; reflexivity. }
    constructor; [|constructor; [|constructor]].
    + exists Examples.small_image. split; [reflexivity|]. split; [exact Hcodec|].
      split; [vm_compute; discriminate|]. split; [vm_compute; discriminate|].
      vm_compute. reflexivity.
    + exists Examples.small_image. split; [reflexivity|]. split; [exact Hcodec|].
      split; [vm_compute; discriminate|]. split; [vm_compute; discriminate|].
      vm_compute. reflexivity.
Defined.

Lemma load_adds_one_tab_per_snapshot_witness :
  exists a',
    _load_project_from_path (ext := Reference.reference) (Ok Sessions.mixed_project)
      Examples.open_app = (Ok true, a') /\
    tabs a' =
      map (fun state => (get_default (s_title state) "Loaded Tab",
                         snd (load_state (ext := Reference.reference) state
                                Examples.fresh_tab)))
          [Sessions.measured_snapshot; Examples.imageless_snapshot;
           Examples.bare_snapshot] /\
    Forall2 (fun state page =>
               no_image_data (ext := Reference.reference) state ->
               exists e, snd page = load_failed Examples.fresh_tab e)
            [Sessions.measured_snapshot; Examples.imageless_snapshot;
             Examples.bare_snapshot]
            (tabs a').
Proof.
  apply (load_adds_one_tab_per_snapshot (ext := Reference.reference)
           Sessions.mixed_project
           [Sessions.measured_snapshot; Examples.imageless_snapshot;
            Examples.bare_snapshot]
           Examples.open_app).
  - reflexivity.
  - constructor; [vm_compute; reflexivity|].
    constructor; [vm_compute; reflexivity|].
    constructor; [vm_compute; reflexivity|constructor].
Defined.

Lemma close_tab_keeps_a_tab_witness :
  tabs (application (snd (close_tab (ext := Reference.reference) 0 true
                            Sessions.single_window))) <> [] /\
  (forall page, tabs (application Sessions.single_window) = [page] ->
     O = O -> true = true ->
     tabs (application (snd (close_tab (ext := Reference.reference) 0 true
                               Sessions.single_window)))
       = [("New Tab 1", Examples.fresh_tab)]).
Proof.
  apply (close_tab_keeps_a_tab (ext := Reference.reference) Sessions.single_window
           O true).
  discriminate.
Defined.

(** ** Clicks after a load, and records that stay drawable *)

Section MoreClicks.

Context {ext : External}.

(** X14: a click after [load_state] measures under the pixel sizes
    computed from the loaded physical dimensions and the size of the
    decoded image, and gives the new record the ["next_cell_id"] of the
    snapshot, which [load_state] takes as it is, whatever ids the loaded
    records carry. *)
Theorem click_after_load_state (t : CellAnalyzerTab) (state : TabSnapshot) (s : string)
    (data : bytes) (img : image) (event : MouseEvent) (ix iy : Z)
    (before after : list contour) (c : contour) :
  s_image_b64 state = Some s -> s <> "" ->
  b64decode s = Some data ->
  imdecode_color data = Ok (Some img) ->
  fst (shape img) <> 0 -> snd (shape img) <> 0 ->
  forallb redrawable (get_default (s_cell_measurements state) []) = true ->
  button event = LeftButton ->
  py_int (qx (scene_pos event)) = Ok ix ->
  py_int (qy (scene_pos event)) = Ok iy ->
  detected img = before ++ c :: after ->
  Forall (fun c' => PrimFloat.leb 0%float (pointPolygonTest c' (ix, iy)) = false) before ->
  PrimFloat.leb 0%float (pointPolygonTest c (ix, iy)) = true ->
  c <> [] ->
  exists t1 t2,
    load_state state t = (Ok tt, t1) /\
    handle_click event t1 = (Ok tt, t2) /\
    cell_measurements t2 =
      get_default (s_cell_measurements state) [] ++
        [derived_measurement
           (PrimFloat.div (get_default (s_image_width_um state) 100%float)
                          (float_of_int (snd (shape img))))
           (PrimFloat.div (get_default (s_image_height_um state) 100%float)
                          (float_of_int (fst (shape img))))
           (get_default (s_next_cell_id state) 1) c] /\
    next_cell_id t2 = get_default (s_next_cell_id state) 1 + 1.
Proof.
  intros Hb64 Hs Hdata Himg Hrows Hcols Hms Hbutton Hx Hy Hdetected Hbefore Hin Hc.
  exists (restored t state img), (clicked (restored t state img) c).
  split; [eapply load_state_ok; eassumption|]. split.
  - unfold handle_click. rewrite Hbutton. cbn [bind get]. cbn [contours restored].
    rewrite Hdetected. eapply scan_first_match; eassumption.
  - unfold clicked, restored.
    cbn [cell_measurements next_cell_id pixel_width_um pixel_height_um].
    rewrite !shape_cvtColor_swap. split; reflexivity.
Qed.

Lemma step_keeps_redrawable (t t' : CellAnalyzerTab) :
  store_step t t' ->
  Forall (fun c => c <> [] /\ forallb point_in_int32 c = true) (contours t) ->
  forallb redrawable (cell_measurements t) = true ->
  forallb redrawable (cell_measurements t') = true.
Proof.
  intros Hstep Hcontours Hms.
  destruct Hstep as [Heq _ _ _ _ _
                    |c area Hc Heq _ _ _ _ _
                    |row cell_id _ Heq _ _ _ _ _
                    |k Heq _ _ _]; rewrite Heq.
  - exact Hms.
  - rewrite forallb_app, Hms. cbn.
    rewrite Forall_forall in Hcontours. destruct (Hcontours c Hc) as [Hne Hrange].
    unfold redrawable, derived_measurement. cbn [contour_data].
    destruct c as [|p c]; [congruence|]. rewrite Hrange. reflexivity.
  - rewrite forallb_forall in *. intros m Hm. apply filter_In in Hm. apply Hms. tauto.
  - rewrite forallb_forall in *. intros m' Hm'. apply in_map_iff in Hm'.
    destruct Hm' as [m [Heqm Hm]]. subst m'.
    unfold redrawable, derived_measurement. cbn [contour_data].
    apply in_firstn in Hm. exact (Hms m Hm).
Qed.

(** X15: when the contours of a tab have points and 32-bit coordinates,
    the records of the store can always be converted and drawn again,
    whatever the user does: no later recalculation, save or load of
    these records meets a polygon it cannot handle. *)
Theorem run_ui_keeps_redrawable (ops : list UiOp) (t0 : CellAnalyzerTab) :
  Forall (fun c => c <> [] /\ forallb point_in_int32 c = true) (contours t0) ->
  forallb redrawable (cell_measurements t0) = true ->
  forallb redrawable (cell_measurements (run_ui ops t0)) = true.
Proof.
  revert t0. induction ops as [|op ops IH]; intros t0 Hcontours Hms; [exact Hms|].
  cbn [run_ui]. destruct (apply_ui_step op t0) as [Hc [_ Hstep]].
  apply IH.
  - rewrite Hc. exact Hcontours.
  - eapply step_keeps_redrawable; eassumption.
Qed.

End MoreClicks.

Lemma click_after_load_state_witness :
  exists t1 t2,
    load_state (ext := Reference.reference) Sessions.snapshot_with_low_counter
      Examples.fresh_tab = (Ok tt, t1) /\
    handle_click (ext := Reference.reference) Sessions.click_in_square t1 = (Ok tt, t2) /\
    cell_measurements t2 =
      cell_measurements Examples.measured ++
        [ {| id := 1; area_um2 := 162%float; width_um := 20%float;
             height_um := 10%float;
             contour_data := [(1, 1); (1, 10); (10, 10); (10, 1)] |} ] /\
    next_cell_id t2 = 2.
Proof.
  refine (click_after_load_state (ext := Reference.reference)
            Examples.fresh_tab Sessions.snapshot_with_low_counter
            (Reference.base64_encode (Reference.raw_encode Sessions.dark_square))
            (Reference.raw_encode Sessions.dark_square) Sessions.dark_square
            Sessions.click_in_square 5 5 [] [] [(1, 1); (1, 10); (10, 10); (10, 1)]
            _ _ _ _ _ _ _ _ _ _ _ _ _ _).
  - reflexivity.
  - vm_compute. discriminate.
  - vm_compute. reflexivity.
  - vm_compute. reflexivity.
  - vm_compute. discriminate.
  - vm_compute. discriminate.
  - vm_compute. reflexivity.
  - reflexivity.
  - vm_compute. reflexivity.
  - vm_compute. reflexivity.
  - vm_compute. reflexivity.
  - constructor.
  - vm_compute. reflexivity.
  - discriminate.
Defined.

Lemma run_ui_keeps_redrawable_witness :
  forallb redrawable (cell_measurements Sessions.after_ui_session) = true.
Proof.
  apply (run_ui_keeps_redrawable (ext := Reference.reference)
           Sessions.ui_session Examples.measured).
  - repeat constructor; discriminate.
  - vm_compute. reflexivity.
Defined.

Lemma handle_click_no_match_witness :
  handle_click (ext := Reference.reference) Sessions.click_outside Examples.three_cells
    = (Ok tt, Examples.three_cells).
Proof.
  apply (handle_click_no_match (ext := Reference.reference) Examples.three_cells
           Sessions.click_outside 500 500).
  - vm_compute. reflexivity.
  - vm_compute. reflexivity.
  - repeat constructor.
Defined.

(** ** Errors of the image decoder *)

Section DecoderErrors.

Context {ext : External}.

Lemma load_state_decoder_raises (t : CellAnalyzerTab) (state : TabSnapshot) (s : string)
    (data : bytes) (e : exn) :
  s_image_b64 state = Some s -> s <> "" ->
  b64decode s = Some data ->
  imdecode_color data = Raise e ->
  is_load_error e = false ->
  load_state state t = (Raise e, t).
Proof.
  intros Hb64 Hs Hdata Himg Hcaught.
  unfold load_state, try_except. rewrite Hb64.
  destruct s as [|ch s]; [congruence|].
  cbn [bind ret]. rewrite Hdata. cbn [bind ret lift]. rewrite Himg.
  rewrite Hcaught. reflexivity.
Qed.

Lemma load_tabs_stop (before after : list TabSnapshot) (state : TabSnapshot)
    (a : CellAnalyzerApp) (e : exn) :
  (forall st, In st before -> exists t', load_state st new_tab = (Ok tt, t')) ->
  (exists t', load_state state new_tab = (Raise e, t')) ->
  for_each (before ++ state :: after) load_tab a =
    (Raise e, snd (for_each before load_tab a)).
Proof.
  intros Hbefore [t' Hraise]. revert a.
  induction before as [|st before IH]; intros a.
  - cbn [app for_each snd]. unfold bind. rewrite load_tab_unfold, Hraise. reflexivity.
  - cbn [app for_each]. unfold bind. rewrite load_tab_unfold.
    destruct (Hbefore st (or_introl eq_refl)) as [loaded Hload]. rewrite Hload.
    apply IH. intros st' Hin. apply Hbefore. right. exact Hin.
Qed.

(** X17: an error that the decoder raises on the bytes of a snapshot's
    image, and that the [except] clauses do not name, leaves [load_state]
    with the tab untouched, and leaves the load of a project after the
    open tabs have been removed: the application is left with the tabs of
    the snapshots before that one, and neither an error nor a success is
    reported. *)
Theorem load_state_decoder_error (state : TabSnapshot) (s : string) (data : bytes)
    (e : exn) :
  s_image_b64 state = Some s -> s <> "" ->
  b64decode s = Some data ->
  imdecode_color data = Raise e ->
  is_load_error e = false ->
  (forall t, load_state state t = (Raise e, t)) /\
  (forall (doc : ProjectData) (before after : list TabSnapshot) (a : CellAnalyzerApp),
     tabs_key doc = Some (before ++ state :: after) ->
     (forall st, In st before -> exists t', load_state st new_tab = (Ok tt, t')) ->
     exists a',
       _load_project_from_path (Ok doc) a = (Raise e, a') /\
       a' = snd (for_each before load_tab (set_tabs [] a)) /\
       map fst (tabs a') = map (fun st => get_default (s_title st) "Loaded Tab") before /\
       app_log a' = app_log a).
Proof.
  intros Hb64 Hs Hdata Himg Hcaught.
  assert (Hraise : forall t, load_state state t = (Raise e, t)).
  { intros t. eapply load_state_decoder_raises; eassumption. }
  split; [exact Hraise|].
  intros doc before after a Hdoc Hbefore.
  eexists. split; [|split; [reflexivity|]].
  - rewrite (load_project_with_tabs doc _ a Hdoc).
    rewrite (load_tabs_stop before after state (set_tabs [] a) e Hbefore).
    + reflexivity.
    + eexists. apply Hraise.
  - clear Hdoc.
    assert (Hgen : forall a0,
      map fst (tabs (snd (for_each before load_tab a0))) =
        map fst (tabs a0) ++ map (fun st => get_default (s_title st) "Loaded Tab") before /\
      app_log (snd (for_each before load_tab a0)) = app_log a0).
    { induction before as [|st before IH]; intros a0.
      - cbn. rewrite app_nil_r. split; reflexivity.
      - cbn [for_each]. unfold bind. rewrite load_tab_unfold.
        destruct (Hbefore st (or_introl eq_refl)) as [loaded Hload]. rewrite Hload.
        cbn [fst snd].
        destruct (IH (fun st' Hin => Hbefore st' (or_intror Hin))
                     (set_tabs (tabs a0 ++ [(get_default (s_title st) "Loaded Tab", loaded)]) a0))
          as [Htabs Hlog].
        rewrite Htabs, Hlog. cbn [tabs set_tabs app_log map].
        rewrite map_app, <- app_assoc. split; reflexivity. }
    destruct (Hgen (set_tabs [] a)) as [Htabs Hlog]. split; assumption.
Qed.

End DecoderErrors.

Lemma load_state_decoder_error_witness :
  (forall t,
     load_state (ext := Reference.reference) Sessions.empty_buffer_snapshot t
       = (Raise cv2_error, t)) /\
  exists a',
    _load_project_from_path (ext := Reference.reference)
      (Ok Sessions.empty_buffer_project) Examples.open_app = (Raise cv2_error, a') /\
    map fst (tabs a') = ["Sample 1"] /\
    app_log a' = [].
Proof.
  destruct (load_state_decoder_error (ext := Reference.reference)
              Sessions.empty_buffer_snapshot "!!!!" [] cv2_error)
    as [Hstate Hproject]; try (vm_compute; reflexivity); [discriminate|].
  split; [exact Hstate|].
  destruct (Hproject Sessions.empty_buffer_project [Sessions.measured_snapshot]
              [Examples.bare_snapshot] Examples.open_app eq_refl) as [a' [Hload [_ [Htabs Hlog]]]].
  - intros st [<-|[]]. eexists. vm_compute. reflexivity.
  - exists a'. split; [exact Hload|]. split; [exact Htabs|exact Hlog].
Defined.
